(** * Subiquity autoinstall pipeline: a shallow embedding

    The development follows the layout of the repository:

    - [Py]                 Python values, exceptions and the string helpers
                           the sources call ([str.split], [str.strip], ...);
    - [JsonSchema]         the fragment of JSON Schema used by the
                           [autoinstall_schema] dictionaries;
    - [KernelCrashDumps]   [subiquity/models/kernel_crash_dumps.py] and
                           [subiquity/server/controllers/kernel_crash_dumps.py];
    - [CloudInit]          [subiquity/cloudinit.py];
    - [Autoinstall]        [subiquity/server/autoinstall.py];
    - [Server]             the parts of [subiquity/server/server.py] that the
                           tests in [subiquity/server/tests/test_server.py]
                           exercise;
    - [ValidateScript]     [scripts/validate-autoinstall-user-data.py];
    - [PubSub]             [subiquitycore/pubsub.py];
    - [Client]             the first screen and the global overlays of
                           [subiquity/client/client.py];
    - [Fixtures]           the set-ups of the test suites.

    Definitions come first, the theorems about them follow. *)

From stdpp Require Import gmap strings list fin_maps.
From Stdlib Require Import ZArith Ascii String Bool.

Set Warnings "-register-all".
Open Scope string_scope.

(* ===================================================================== *)
(** * Python values, results and string helpers *)
(* ===================================================================== *)

Module Py.

(** The values that [yaml.safe_load] and [json.loads] produce, and that the
    autoinstall document is made of.  A [dict] keeps its insertion order, so
    it is an association list; floats do not occur in the code modelled
    here. *)
Inductive value : Type :=
| VNone
| VBool (b : bool)
| VInt (n : Z)
| VStr (s : string)
| VList (l : list value)
| VDict (d : list (string * value)).

Abbreviation dict := (list (string * value)).

(** [d.get(k)]: the value bound to [k], if any. *)
Fixpoint dict_get (k : string) (d : dict) : option value :=
  match d with
  | [] => None
  | (k', v) :: d' => if String.eqb k k' then Some v else dict_get k d'
  end.

(** [k in d]. *)
Definition key_in (k : string) (d : dict) : bool :=
  match dict_get k d with Some _ => true | None => false end.

(** [list(d)], the keys in insertion order. *)
Definition keys (d : dict) : list string := map fst d.

(** [x in l] for a list of strings. *)
Definition str_in (x : string) (l : list string) : bool :=
  existsb (String.eqb x) l.

(** An optional Python string as a value ([None] stays [None]). *)
Definition of_opt_str (o : option string) : value :=
  match o with Some s => VStr s | None => VNone end.

(** [bool(v)] *)
Definition truthy (v : value) : bool :=
  match v with
  | VNone => false
  | VBool b => b
  | VInt n => negb (n =? 0)%Z
  | VStr s => negb (String.eqb s "")
  | VList l => match l with [] => false | _ => true end
  | VDict d => match d with [] => false | _ => true end
  end.

(** Exceptions.  [AutoinstallValidationError] is the class of
    [subiquity/server/autoinstall.py]; [CloudInitSchemaValidationError] the
    one of [subiquity/cloudinit.py]. *)
Inductive exn : Type :=
| AssertionError (msg : string)
| IndexError (msg : string)
| TypeError (msg : string)
| TimeoutError
| AutoinstallValidationError (section : string) (message : string)
| CloudInitSchemaValidationError (keys : list string) (message : string)
| OtherError (type_name : string) (msg : string).

(** [type(exc).__name__] *)
Definition type_name (e : exn) : string :=
  match e with
  | AssertionError _ => "AssertionError"
  | IndexError _ => "IndexError"
  | TypeError _ => "TypeError"
  | TimeoutError => "TimeoutError"
  | AutoinstallValidationError _ _ => "AutoinstallValidationError"
  | CloudInitSchemaValidationError _ _ => "CloudInitSchemaValidationError"
  | OtherError n _ => n
  end.

(** [str(exc)] *)
Definition str (e : exn) : string :=
  match e with
  | AssertionError m | IndexError m | TypeError m => m
  | TimeoutError => ""
  | AutoinstallValidationError _ m => m
  | CloudInitSchemaValidationError _ m => m
  | OtherError _ m => m
  end.

(** A computation either returns or raises. *)
Inductive result (A : Type) : Type :=
| Return (a : A)
| Raise (e : exn).
Arguments Return {A} a.
Arguments Raise {A} e.

Definition bind {A B} (r : result A) (k : A -> result B) : result B :=
  match r with Return a => k a | Raise e => Raise e end.

Definition raised {A} (r : result A) : bool :=
  match r with Return _ => false | Raise _ => true end.

(** ** String helpers *)

Definition nl : ascii := ascii_of_nat 10.
Definition cr : ascii := ascii_of_nat 13.

(** A Python [str] is a sequence of code points; a [string] here is its
    UTF-8 encoding, one [ascii] per byte.  A character of several bytes is
    recognised by its byte sequence: the first byte of a sequence is never
    a continuation byte of another character, so in the encoding of a [str]
    the sequence stands for that character wherever it is found. *)

(** The line boundaries of [str.splitlines] that are single bytes:
    LF, CR, VT, FF, FS, GS, RS. *)
Definition is_linebreak (c : ascii) : bool :=
  let n := nat_of_ascii c in
  (n =? 10)%nat || (n =? 11)%nat || (n =? 12)%nat || (n =? 13)%nat
  || (n =? 28)%nat || (n =? 29)%nat || (n =? 30)%nat.

(** The number of bytes of the line boundary at the head of [s], 0 when
    there is none.  Besides the single bytes: CR LF, which is one boundary,
    U+0085 (bytes C2 85), U+2028 and U+2029 (bytes E2 80 A8, E2 80 A9). *)
Definition linebreak_len (s : string) : nat :=
  match s with
  | "" => 0
  | String a r =>
      let x := nat_of_ascii a in
      if (x =? 13)%nat
      then match r with
           | String b _ => if (nat_of_ascii b =? 10)%nat then 2 else 1
           | "" => 1
           end
      else if is_linebreak a then 1
      else match r with
           | "" => 0
           | String b r' =>
               let y := nat_of_ascii b in
               if (x =? 194)%nat && (y =? 133)%nat then 2
               else match r' with
                    | "" => 0
                    | String c _ =>
                        let z := nat_of_ascii c in
                        if (x =? 226)%nat && (y =? 128)%nat
                           && ((z =? 168)%nat || (z =? 169)%nat)
                        then 3 else 0
                    end
           end
  end.

(** [s.splitlines()]: a final boundary does not open an empty last line.
    [skip] counts the bytes of a boundary still to be dropped. *)
Fixpoint splitlines_aux (skip : nat) (cur : string) (s : string)
  : list string :=
  match s with
  | "" => if String.eqb cur "" then [] else [cur]
  | String c r =>
      match skip with
      | S k => splitlines_aux k cur r
      | O =>
          match linebreak_len s with
          | O => splitlines_aux 0 (cur ++ String c "") r
          | S k => cur :: splitlines_aux k "" r
          end
      end
  end.

Definition splitlines (s : string) : list string :=
  splitlines_aux 0 "" s.

(** [s.startswith(p)] *)
Definition startswith (p s : string) : bool := String.prefix p s.

(** [s.split(sep)] for a non-empty separator: [skip] counts the characters
    of a separator still to be dropped. *)
Fixpoint split_aux (sep : string) (skip : nat) (cur : string) (s : string)
  : list string :=
  match s with
  | "" => [cur]
  | String c r =>
      match skip with
      | S k => split_aux sep k cur r
      | O =>
          if String.prefix sep s
          then cur :: split_aux sep (String.length sep - 1) "" r
          else split_aux sep 0 (cur ++ String c "") r
      end
  end.

Definition split (sep s : string) : list string := split_aux sep 0 "" s.

(** The whitespace of [str.split()] and [str.strip()] without argument
    that is a single byte: U+0009 to U+000D, U+001C to U+001F, U+0020. *)
Definition is_space (c : ascii) : bool :=
  let n := nat_of_ascii c in
  (n =? 32)%nat || ((9 <=? n)%nat && (n <=? 13)%nat)
  || ((28 <=? n)%nat && (n <=? 31)%nat).

(** The whitespace of two bytes: U+0085 (C2 85) and U+00A0 (C2 A0). *)
Definition is_space2 (a b : ascii) : bool :=
  let x := nat_of_ascii a in
  let y := nat_of_ascii b in
  (x =? 194)%nat && ((y =? 133)%nat || (y =? 160)%nat).

(** The whitespace of three bytes: U+1680 (E1 9A 80), U+2000 to U+200A
    (E2 80 80 to E2 80 8A), U+2028, U+2029 and U+202F (E2 80 A8, E2 80 A9,
    E2 80 AF), U+205F (E2 81 9F) and U+3000 (E3 80 80). *)
Definition is_space3 (a b c : ascii) : bool :=
  let x := nat_of_ascii a in
  let y := nat_of_ascii b in
  let z := nat_of_ascii c in
  ((x =? 225)%nat && (y =? 154)%nat && (z =? 128)%nat)
  || ((x =? 226)%nat && (y =? 128)%nat
      && (((128 <=? z)%nat && (z <=? 138)%nat)
          || (z =? 168)%nat || (z =? 169)%nat || (z =? 175)%nat))
  || ((x =? 226)%nat && (y =? 129)%nat && (z =? 159)%nat)
  || ((x =? 227)%nat && (y =? 128)%nat && (z =? 128)%nat).

(** The number of bytes of the whitespace character at the head of [s],
    0 when [s] does not start with whitespace. *)
Definition ws_len (s : string) : nat :=
  match s with
  | "" => 0
  | String a r =>
      if is_space a then 1
      else match r with
           | "" => 0
           | String b r' =>
               if is_space2 a b then 2
               else match r' with
                    | "" => 0
                    | String c _ => if is_space3 a b c then 3 else 0
                    end
           end
  end.

(** [s.split()]: runs of whitespace separate the words, none is empty.
    [skip] counts the bytes of a whitespace character still to be
    dropped. *)
Fixpoint split_ws_aux (skip : nat) (cur : string) (s : string)
  : list string :=
  match s with
  | "" => if String.eqb cur "" then [] else [cur]
  | String c r =>
      match skip with
      | S k => split_ws_aux k cur r
      | O =>
          match ws_len s with
          | O => split_ws_aux 0 (cur ++ String c "") r
          | S k => (if String.eqb cur "" then [] else [cur])
                   ++ split_ws_aux k "" r
          end
      end
  end.

Definition split_ws (s : string) : list string := split_ws_aux 0 "" s.

(** [s.lstrip(c)] and [s.strip(c)] for a single character [c]. *)
Fixpoint lstrip (c : ascii) (s : string) : string :=
  match s with
  | String c' r => if Ascii.eqb c c' then lstrip c r else s
  | "" => ""
  end.

Definition strip (c : ascii) (s : string) : string :=
  String.rev (lstrip c (String.rev (lstrip c s))).

(** [needle in s] for strings. *)
Fixpoint contains (needle s : string) : bool :=
  String.prefix needle s ||
  match s with
  | "" => false
  | String _ r => contains needle r
  end.

(** [a >= b] on [str]: the lexicographic order on code points, which on
    UTF-8 bytes is the lexicographic order on bytes. *)
Definition str_ge (a b : string) : bool := String.leb b a.

(** [isinstance(v, list)] *)
Definition is_list (v : value) : bool :=
  match v with VList _ => true | _ => false end.

(** [o is not None] *)
Definition is_set {A : Type} (o : option A) : bool :=
  match o with Some _ => true | None => false end.

(** Whether a whitespace character occurs in [w]. *)
Fixpoint has_space (w : string) : bool :=
  match w with
  | "" => false
  | String _ r => negb (ws_len w =? 0)%nat || has_space r
  end.

(** A string without whitespace. *)
Definition spaceless (w : string) : bool := negb (has_space w).

(** No whitespace character starts in [cur] when [cur] is followed
    by [s]. *)
Definition clean_before (cur s : string) : Prop :=
  forall p q, cur = p ++ q -> q <> "" -> ws_len (q ++ s) = 0.

(** [s.lstrip()]: the leading whitespace removed. *)
Fixpoint lstrip_ws_aux (skip : nat) (s : string) : string :=
  match s with
  | "" => ""
  | String _ r =>
      match skip with
      | S k => lstrip_ws_aux k r
      | O =>
          match ws_len s with
          | O => s
          | S k => lstrip_ws_aux k r
          end
      end
  end.

Definition lstrip_ws (s : string) : string := lstrip_ws_aux 0 s.

(** Whether [s] consists of whitespace only. *)
Fixpoint all_space_aux (skip : nat) (s : string) : bool :=
  match s with
  | "" => true
  | String _ r =>
      match skip with
      | S k => all_space_aux k r
      | O =>
          match ws_len s with
          | O => false
          | S k => all_space_aux k r
          end
      end
  end.

Definition all_space (s : string) : bool := all_space_aux 0 s.

(** [s.rstrip()]: the longest tail of whitespace removed. *)
Fixpoint rstrip_ws (s : string) : string :=
  match s with
  | "" => ""
  | String c r => if all_space s then "" else String c (rstrip_ws r)
  end.

(** [s.strip()]: leading and trailing whitespace removed. *)
Definition strip_ws (s : string) : string := rstrip_ws (lstrip_ws s).

(** A continuation byte of UTF-8: 80 to BF. *)
Definition is_continuation (c : ascii) : bool :=
  let n := nat_of_ascii c in (128 <=? n)%nat && (n <=? 191)%nat.

(** The characters of a string, each as a string: what iterating over a
    [str] gives.  A character is a byte and the continuation bytes that
    follow it. *)
Fixpoint chars_aux (cur : string) (s : string) : list string :=
  match s with
  | "" => if String.eqb cur "" then [] else [cur]
  | String c r =>
      if is_continuation c
      then chars_aux (cur ++ String c "") r
      else (if String.eqb cur "" then [] else [cur])
           ++ chars_aux (String c "") r
  end.

Definition chars (s : string) : list string := chars_aux "" s.

(** [type(v).__name__] *)
Definition type_of (v : value) : string :=
  match v with
  | VNone => "NoneType"
  | VBool _ => "bool"
  | VInt _ => "int"
  | VStr _ => "str"
  | VList _ => "list"
  | VDict _ => "dict"
  end.

(** The [AttributeError] of [v.name] for a value without that
    attribute. *)
Definition no_attribute (v : value) (name : string) : exn :=
  OtherError "AttributeError"
    ("'" ++ type_of v ++ "' object has no attribute '" ++ name ++ "'").

(** [iter(v)]: the elements of a list, the keys of a dictionary, the
    characters of a string; nothing else is iterable. *)
Definition py_iter (v : value) : result (list value) :=
  match v with
  | VList l => Return l
  | VDict d => Return (map (fun kv => VStr (fst kv)) d)
  | VStr s => Return (map VStr (chars s))
  | VNone => Raise (TypeError "'NoneType' object is not iterable")
  | VBool _ => Raise (TypeError "'bool' object is not iterable")
  | VInt _ => Raise (TypeError "'int' object is not iterable")
  end.

(** [l[i]] on a list for an integer [i]: negative indices count from the
    end. *)
Definition list_index (l : list value) (i : Z) : result value :=
  let n := Z.of_nat (List.length l) in
  let j := if (i <? 0)%Z then (i + n)%Z else i in
  if (0 <=? j)%Z && (j <? n)%Z
  then match nth_error l (Z.to_nat j) with
       | Some x => Return x
       | None => Raise (IndexError "list index out of range")
       end
  else Raise (IndexError "list index out of range").

(** [s[i]] on a string for an integer [i]. *)
Definition str_index (s : string) (i : Z) : result value :=
  match list_index (map VStr (chars s)) i with
  | Return x => Return x
  | Raise _ => Raise (IndexError "string index out of range")
  end.

(** [v[k]]: a dictionary by key, a list by integer ([True] and [False]
    are 1 and 0), a string by integer. *)
Definition py_getitem (v k : value) : result value :=
  match v, k with
  | VDict d, VStr key =>
      match dict_get key d with
      | Some x => Return x
      | None => Raise (OtherError "KeyError" key)
      end
  | VDict _, _ => Raise (OtherError "KeyError" "")
  | VList l, VInt i => list_index l i
  | VList l, VBool b => list_index l (if b then 1 else 0)%Z
  | VList _, k =>
      Raise (TypeError ("list indices must be integers or slices, not "
                        ++ type_of k))
  | VStr s, VInt i => str_index s i
  | VStr s, VBool b => str_index s (if b then 1 else 0)%Z
  | VStr _, _ => Raise (TypeError "string indices must be integers")
  | VNone, _ => Raise (TypeError "'NoneType' object is not subscriptable")
  | VBool _, _ => Raise (TypeError "'bool' object is not subscriptable")
  | VInt _, _ => Raise (TypeError "'int' object is not subscriptable")
  end.

End Py.

Import Py.

(* ===================================================================== *)
(** * JSON Schema, as far as the [autoinstall_schema] dictionaries use it *)
(* ===================================================================== *)

Module JsonSchema.

Inductive jtype : Type := TObject | TArray | TString | TBoolean | TInteger | TNull.

(** A schema object.  An absent ["properties"] is the empty list, an absent
    ["required"] or ["allOf"] the empty list, an absent
    ["additionalProperties"] is [true]; these have the same meaning as the
    missing keyword. *)
Inductive schema : Type :=
| Schema
    (kw_type : option jtype)
    (kw_properties : list (string * schema))
    (kw_required : list string)
    (kw_oneOf : option (list schema))
    (kw_allOf : list schema)
    (kw_not : option schema)
    (kw_additionalProperties : bool)
    (kw_items : option schema).

(** [s.get("properties", {})] *)
Definition properties (s : schema) : list (string * schema) :=
  match s with Schema _ props _ _ _ _ _ _ => props end.

(** ["type"]: in Python a [bool] is not an ["integer"]. *)
Definition has_type (t : jtype) (v : value) : bool :=
  match t, v with
  | TObject, VDict _ => true
  | TArray, VList _ => true
  | TString, VStr _ => true
  | TBoolean, VBool _ => true
  | TInteger, VInt _ => true
  | TNull, VNone => true
  | _, _ => false
  end.

Definition count_true (l : list bool) : nat :=
  List.length (List.filter (fun b => b) l).

(** [is_valid]: [jsonschema.validate(v, s)] does not raise.  The keywords
    for objects ("properties", "required", "additionalProperties") hold
    vacuously of a value that is not a [dict], ["items"] of one that is not
    a list. *)
Fixpoint is_valid (s : schema) (v : value) {struct s} : bool :=
  match s with
  | Schema ty props req oneof allof nt addl items =>
      match ty with Some t => has_type t v | None => true end
      && match v with
         | VDict d =>
             (fix check_props (ps : list (string * schema)) : bool :=
                match ps with
                | [] => true
                | (k, sub) :: ps' =>
                    match dict_get k d with
                    | Some x => is_valid sub x
                    | None => true
                    end && check_props ps'
                end) props
         | _ => true
         end
      && match v with
         | VDict d => forallb (fun k => key_in k d) req
         | _ => true
         end
      && match oneof with
         | Some subs =>
             Nat.eqb
               (count_true
                  ((fix each (ss : list schema) : list bool :=
                      match ss with
                      | [] => []
                      | sub :: ss' => is_valid sub v :: each ss'
                      end) subs))
               1
         | None => true
         end
      && (fix all_of (ss : list schema) : bool :=
            match ss with
            | [] => true
            | sub :: ss' => is_valid sub v && all_of ss'
            end) allof
      && match nt with Some sub => negb (is_valid sub v) | None => true end
      && match v with
         | VDict d =>
             addl || forallb (fun k => str_in k (map fst props)) (keys d)
         | _ => true
         end
      && match items, v with
         | Some sub, VList l =>
             (fix all_items (xs : list value) : bool :=
                match xs with
                | [] => true
                | x :: xs' => is_valid sub x && all_items xs'
                end) l
         | _, _ => true
         end
  end.

(** Shorthands for the schema dictionaries written in the sources. *)
Definition typed (t : jtype) : schema := Schema (Some t) [] [] None [] None true None.
Definition required (ks : list string) : schema := Schema None [] ks None [] None true None.
Definition not_ (s : schema) : schema := Schema None [] [] None [] (Some s) true None.
Definition all_of (ss : list schema) : schema := Schema None [] [] None ss None true None.
Definition array_of (s : schema) : schema := Schema (Some TArray) [] [] None [] None true (Some s).

End JsonSchema.

Import JsonSchema.

(* ===================================================================== *)
(** * Kernel crash dumps: model and controller *)
(* ===================================================================== *)

Module KernelCrashDumps.

(** [class KernelCrashDumpsModel]; every attribute defaults to [None]. *)
Record KernelCrashDumpsModel : Type := {
  enabled : option bool;
  memory_min : option string;
  memory_reserved : option string;
  crashkernel : option string;
}.

Definition default_model : KernelCrashDumpsModel :=
  {| enabled := None; memory_min := None; memory_reserved := None;
     crashkernel := None |}.

(** [KernelCrashDumpsModel.render] *)
Definition render (self : KernelCrashDumpsModel) : dict :=
  match enabled self with
  | None => [("kernel-crash-dumps", VDict [("enabled", VNone)])]
  | Some e =>
      [("kernel-crash-dumps",
        VDict [("enabled", VBool e);
               ("memory-min", of_opt_str (memory_min self));
               ("memory-reserved", of_opt_str (memory_reserved self));
               ("crashkernel", of_opt_str (crashkernel self))])]
  end.

(** The section of a rendered configuration. *)
Definition rendered_section (self : KernelCrashDumpsModel) : dict :=
  match dict_get "kernel-crash-dumps" (render self) with
  | Some (VDict d) => d
  | _ => []
  end.

Definition autoinstall_key : string := "kernel-crash-dumps".

(** [KernelCrashDumpsController.autoinstall_schema] *)
Definition autoinstall_schema : schema :=
  Schema (Some TObject)
    [("enabled", typed TBoolean);
     ("memory-min", typed TString);
     ("memory-reserved", typed TString);
     ("crashkernel", typed TString)]
    ["enabled"]
    (Some
       [Schema None [] ["memory-min"; "memory-reserved"] None []
          (Some (required ["crashkernel"])) true None;
        all_of [not_ (required ["memory-min"]);
                not_ (required ["memory-reserved"])]])
    [] None false None.

(** [KernelCrashDumpsController.load_autoinstall_data]: [data] is [None] or
    a dictionary that passed the schema; [data["enabled"]] raises
    [KeyError] on a dictionary without the key. *)
Definition as_bool (v : value) : option bool :=
  match v with VBool b => Some b | _ => None end.

Definition as_str (v : value) : option string :=
  match v with VStr s => Some s | _ => None end.

Definition load_autoinstall_data (model : KernelCrashDumpsModel)
  (data : option dict) : result KernelCrashDumpsModel :=
  match data with
  | None => Return model
  | Some d =>
      match dict_get "enabled" d with
      | None => Raise (OtherError "KeyError" "'enabled'")
      | Some e =>
          Return {| enabled := as_bool e;
                    memory_min := dict_get "memory-min" d ≫= as_str;
                    memory_reserved := dict_get "memory-reserved" d ≫= as_str;
                    crashkernel := dict_get "crashkernel" d ≫= as_str |}
      end
  end.

(** [KernelCrashDumpsController.make_autoinstall].  Its test
    [if self.crashkernel] reads an attribute of the controller, not of the
    model; no class among the sources defines it, so what the lookup gives
    (a value, or an [AttributeError]) is the parameter [self_crashkernel]. *)
Definition make_autoinstall (model : KernelCrashDumpsModel)
  (self_crashkernel : result value) : result dict :=
  match enabled model with
  | None => Return []
  | Some e =>
      bind self_crashkernel (fun ck =>
        Return
          (if truthy ck
           then [("enabled", VBool e);
                 ("crashkernel", of_opt_str (crashkernel model))]
           else [("enabled", VBool e);
                 ("memory-min", of_opt_str (memory_min model));
                 ("memory-reserved", of_opt_str (memory_reserved model))]))
  end.

(** The [AttributeError] of [self.crashkernel] on a controller whose
    classes define no such attribute. *)
Definition no_attribute_crashkernel : exn :=
  OtherError "AttributeError"
    "'KernelCrashDumpsController' object has no attribute 'crashkernel'".

(** What the claim about the schema says: a section is rejected exactly
    when it lacks [enabled], has an unknown key, or has [crashkernel]
    together with [memory-min] or [memory-reserved]. *)
Definition known_keys : list string :=
  ["enabled"; "memory-min"; "memory-reserved"; "crashkernel"].

Definition has_unknown_key (d : dict) : bool :=
  negb (forallb (fun k => str_in k known_keys) (keys d)).

Definition claimed_rejected (d : dict) : bool :=
  negb (key_in "enabled" d)
  || has_unknown_key d
  || (key_in "crashkernel" d
      && (key_in "memory-min" d || key_in "memory-reserved" d)).

(** What the schema does in addition: the values are typed, and
    [memory-min] and [memory-reserved] come together. *)
Definition is_bool (v : value) : bool :=
  match v with VBool _ => true | _ => false end.

Definition is_str (v : value) : bool :=
  match v with VStr _ => true | _ => false end.

Definition ill_typed (d : dict) : bool :=
  match dict_get "enabled" d with Some v => negb (is_bool v) | None => false end
  || match dict_get "memory-min" d with Some v => negb (is_str v) | None => false end
  || match dict_get "memory-reserved" d with Some v => negb (is_str v) | None => false end
  || match dict_get "crashkernel" d with Some v => negb (is_str v) | None => false end.

Definition lone_memory_key (d : dict) : bool :=
  xorb (key_in "memory-min" d) (key_in "memory-reserved" d).

Definition rejected (v : value) : bool :=
  match v with
  | VDict d => claimed_rejected d || ill_typed d || lone_memory_key d
  | _ => true
  end.

End KernelCrashDumps.

(* ===================================================================== *)
(** * Cloud-init helpers *)
(* ===================================================================== *)

Module CloudInit.

(** [subprocess.CompletedProcess], decoded to [str]. *)
Record CompletedProcess : Type := {
  stdout : string;
  stderr : string;
  returncode : Z;
}.

(** What the functions of [cloudinit.py] take from outside: the commands of
    [subiquitycore.utils], [asyncio.wait_for], and the [json] and [re]
    libraries.  [wait_for c t] raises [TimeoutError] when [c] is not done
    after [t] seconds, and otherwise returns or raises what [c] does.
    [re_search pattern text] is [None] without a match and otherwise gives
    the groups of the first match by name. *)
Record Host : Type := {
  Coroutine : Type;
  run_command : list string -> CompletedProcess;
  arun_command : list string -> option bool -> Coroutine;
  wait_for : Coroutine -> Z -> result CompletedProcess;
  json_loads : string -> option value;
  re_search : string -> string -> option (string -> string);
}.

(** [re.split("[-~]", s)[0]]: what comes before the first ['-'] or ['~']. *)
Fixpoint before_dash_or_tilde (s : string) : string :=
  match s with
  | "" => ""
  | String c r =>
      if Ascii.eqb c "-"%char || Ascii.eqb c "~"%char then ""
      else String c (before_dash_or_tilde r)
  end.

(** [cloud_init_version] *)
Definition cloud_init_version (h : Host) : string :=
  let cmd := ["dpkg-query"; "-W"; "-f=${Version}"; "cloud-init"] in
  let sp := run_command h cmd in
  before_dash_or_tilde (stdout sp).

(** [supports_format_json] *)
Definition supports_format_json (h : Host) : bool :=
  str_ge (cloud_init_version h) "22.4".

(** [supports_recoverable_errors] *)
Definition supports_recoverable_errors (h : Host) : bool :=
  str_ge (cloud_init_version h) "23.4".

(** [read_json_extended_status]: [None] when the stream is not JSON;
    [status.get] needs a dictionary. *)
Definition read_json_extended_status (h : Host) (stream : string)
  : result value :=
  match json_loads h stream with
  | None => Return VNone
  | Some (VDict status) =>
      Return
        (match dict_get "extended_status" status with
         | Some v => v
         | None =>
             match dict_get "status" status with
             | Some v => v
             | None => VNone
             end
         end)
  | Some status => Raise (no_attribute status "get")
  end.

(** [read_legacy_status]: the second word of the first line that starts
    with ["status:"] and has one. *)
Fixpoint first_status (lines : list string) : value :=
  match lines with
  | [] => VNone
  | line :: rest =>
      if startswith "status:" line
      then match split_ws line with
           | _ :: w :: _ => VStr w
           | _ => first_status rest
           end
      else first_status rest
  end.

Definition read_legacy_status (stream : string) : value :=
  first_status (splitlines stream).

Definition unexpected_pattern : string :=
  "\((?P<args>'[\w\-]+'(,\s'[\w\-]+')*)+ (?:was|were) unexpected\)".

(** [get_schema_failure_sources] *)
Definition get_schema_failure_sources (h : Host) : result (list string) :=
  let cmd := ["cloud-init"; "schema"; "--system"] in
  let status_coro := arun_command h cmd (Some true) in
  match wait_for h status_coro 10 with
  | Raise TimeoutError => Return []
  | Raise e => Raise e
  | Return sp =>
      let error := stderr sp in
      match re_search h unexpected_pattern error with
      | None => Return []
      | Some group =>
          let args_list := split ", " (group "args") in
          Return (map (strip "'"%char) args_list)
      end
  end.

(** [cloud_init_status_wait] *)
Definition cloud_init_status_wait (h : Host) : result (bool * value) :=
  let format_json := supports_format_json h in
  let cmd :=
    (["cloud-init"; "status"; "--wait"]
       ++ if format_json then ["--format=json"] else [])%list in
  let status_coro := arun_command h cmd None in
  match wait_for h status_coro 600 with
  | Raise TimeoutError => Return (false, VStr "timeout")
  | Raise e => Raise e
  | Return sp =>
      if format_json
      then bind (read_json_extended_status h (stdout sp))
             (fun status => Return (true, status))
      else Return (true, read_legacy_status (stdout sp))
  end.

(** [validate_cloud_init_schema] *)
Definition validate_cloud_init_schema (h : Host) : result unit :=
  bind (get_schema_failure_sources h) (fun causes =>
    match causes with
    | [] => Return tt
    | _ => Raise (CloudInitSchemaValidationError causes
                    "Cloud config schema failed to validate.")
    end).

(** The errors that a well-formed [recoverable_errors] records for one
    level. *)
Definition errors_at (d : dict) (level : string) : list value :=
  match dict_get level d with
  | Some (VList l) => l
  | _ => []
  end.

(** [errors_by_level.get(level, [])] *)
Definition get_level (errors_by_level : value) (level : string)
  : result value :=
  match errors_by_level with
  | VDict d => Return (default (VList []) (dict_get level d))
  | _ => Raise (no_attribute errors_by_level "get")
  end.

(** The loop of [read_recoverable_errors]: for each [_level],
    [all_errors.extend(errors_by_level[_level])]. *)
Fixpoint extend_all (errors_by_level : value) (levels : list value)
  (all_errors : list value) : result (list value) :=
  match levels with
  | [] => Return all_errors
  | _level :: rest =>
      bind (py_getitem errors_by_level _level) (fun errors =>
      bind (py_iter errors) (fun items =>
        extend_all errors_by_level rest (all_errors ++ items)%list))
  end.

(** [read_recoverable_errors]; [level] is [None] or a string. *)
Definition read_recoverable_errors (h : Host) (stream : string)
  (level : option string) : result value :=
  match json_loads h stream with
  | None => Return (VList [])
  | Some (VDict status) =>
      let errors_by_level :=
        default (VDict []) (dict_get "recoverable_errors" status) in
      match level with
      | Some l => get_level errors_by_level l
      | None =>
          bind (py_iter errors_by_level) (fun levels =>
          bind (extend_all errors_by_level levels []) (fun all_errors =>
            Return (VList all_errors)))
      end
  | Some status => Raise (no_attribute status "get")
  end.

(** The order of Python on [str], as the language reference words it:
    the first position where the two strings differ decides, by the code
    of the character there; without such a position the shorter string
    comes first. *)
Fixpoint lex_le (a b : string) : bool :=
  match a, b with
  | "", _ => true
  | String _ _, "" => false
  | String x a', String y b' =>
      let n := nat_of_ascii x in
      let m := nat_of_ascii y in
      if (n <? m)%nat then true
      else if (m <? n)%nat then false
      else lex_le a' b'
  end.

(** The reading of a version by its numbers, which the feature gates do
    not use: ["22.4"] is [(22, 4)]. *)
Definition digit_of (c : ascii) : option nat :=
  let n := nat_of_ascii c in
  if (48 <=? n)%nat && (n <=? 57)%nat then Some (n - 48) else None.

Fixpoint number_of (acc : nat) (s : string) : option nat :=
  match s with
  | "" => Some acc
  | String c r =>
      match digit_of c with
      | Some d => number_of (10 * acc + d) r
      | None => None
      end
  end.

Definition version_numbers (v : string) : option (nat * nat) :=
  match split "." v with
  | [a; b] =>
      if String.eqb a "" || String.eqb b "" then None
      else match number_of 0 a, number_of 0 b with
           | Some x, Some y => Some (x, y)
           | _, _ => None
           end
  | _ => None
  end.

Definition numerically_below (v threshold : string) : bool :=
  match version_numbers v, version_numbers threshold with
  | Some (a, b), Some (c, d) => (a <? c)%nat || ((a =? c)%nat && (b <? d)%nat)
  | _, _ => false
  end.

(** The command of [cloud_init_status_wait]. *)
Definition status_wait_cmd (h : Host) : list string :=
  (["cloud-init"; "status"; "--wait"]
     ++ if supports_format_json h then ["--format=json"] else [])%list.

Definition is_timeout {A} (r : result A) : bool :=
  match r with Raise TimeoutError => true | _ => false end.

End CloudInit.

(* ===================================================================== *)
(** * [subiquity/server/autoinstall.py] *)
(* ===================================================================== *)

Module Autoinstall.

Definition dquote : ascii := ascii_of_nat 34.
Definition backslash : ascii := ascii_of_nat 92.

Definition hex_digit (n : nat) : ascii :=
  ascii_of_nat (if (n <? 10)%nat then 48 + n else 87 + n).

(** One character of [repr(s)] between the quotes [q]: the quote and the
    backslash are escaped, the control characters are written [\t], [\n],
    [\r] or [\xNN]. *)
Definition escaped (q c : ascii) : string :=
  let n := nat_of_ascii c in
  if Ascii.eqb c q || Ascii.eqb c backslash
  then String backslash (String c "")
  else if (n =? 9)%nat then String backslash "t"
  else if (n =? 10)%nat then String backslash "n"
  else if (n =? 13)%nat then String backslash "r"
  else if (n <? 32)%nat || (n =? 127)%nat
  then String backslash
         (String "x" (String (hex_digit (n / 16))
                        (String (hex_digit (n mod 16)) "")))
  else String c "".

Fixpoint escape_all (q : ascii) (s : string) : string :=
  match s with
  | "" => ""
  | String c r => escaped q c ++ escape_all q r
  end.

(** [repr] of a string, as the [!r] of an f-string gives it: between
    single quotes, or between double quotes when the string has a single
    quote and no double quote.  A character outside ASCII is kept, which is
    what [repr] does with the printable ones. *)
Definition repr (s : string) : string :=
  let q := if contains "'" s && negb (contains (String dquote "") s)
           then dquote else "'"%char in
  String q (escape_all q s ++ String q "").

(** [AutoinstallValidationError(section, message)]: an absent or empty
    message becomes the default one. *)
Definition new_AutoinstallValidationError (section : string)
  (message : option string) : exn :=
  let default := "Malformed autoinstall in " ++ repr section ++ " section" in
  match message with
  | None => AutoinstallValidationError section default
  | Some m =>
      if String.eqb m "" then AutoinstallValidationError section default
      else AutoinstallValidationError section m
  end.

End Autoinstall.

(* ===================================================================== *)
(** * The server: source selection, validation, phased loading *)
(* ===================================================================== *)

Module Server.

(** [subiquity/server/server.py] is not among the sources; what follows
    is modelled from the specification and from the tests of
    [subiquity/server/tests/test_server.py], which are. *)

(** The file system: the contents of the files that exist, by path. *)
Abbreviation files := (gmap string string).

Inductive level : Type := Warning | Error.

(** Modelled from the spec: the section registration interface of
    [subiquity/server/controller.py], which is not among the sources.  A
    section declares its key (absent for a controller without autoinstall
    data, as the mocks of [TestMetaController] have it), an optional schema
    fragment, and whether it takes data in the early phase. *)
Record Controller : Type := {
  autoinstall_key : option string;
  autoinstall_schema : option schema;
  early : bool;
}.

(** Modelled from the spec: [SubiquityServer.base_schema] of
    [subiquity/server/server.py], which is not among the sources: the
    reserved top-level keys and their shapes; [version] is required. *)
Definition default_base_schema : schema :=
  Schema (Some TObject)
    [("version", typed TInteger);
     ("interactive-sections", array_of (typed TString));
     ("early-commands", array_of (typed TString))]
    ["version"] None [] None true None.

(** Modelled from the spec: the state of [SubiquityServer] in
    [subiquity/server/server.py], which is not among the sources; the
    attributes are the ones [test_server.py] sets and reads
    ([TestAutoinstallValidation] replaces [base_schema]).  The three
    well-known paths are already relative to the output base. *)
Record SubiquityServer : Type := {
  opts_autoinstall : option string;
  kernel_cmdline : gmap string string;
  root_autoinstall_path : string;
  cloud_autoinstall_path : string;
  iso_autoinstall_path : string;
  controllers : list Controller;
  base_schema : schema;
  autoinstall : option string;
  autoinstall_config : dict;
  delivered : list (string * option value);
  log : list (level * string);
}.

(** [os.path.exists(p)] *)
Definition path_exists (fs : files) (p : string) : bool :=
  match fs !! p with Some _ => true | None => false end.

(** Modelled from the spec: the candidates of [select_autoinstall] in
    precedence order (override, kernel command line, root, cloud, iso); an
    absent candidate is [None]. *)
Definition locations (self : SubiquityServer) : list (option string) :=
  [opts_autoinstall self;
   kernel_cmdline self !! "subiquity.autoinstallpath";
   Some (root_autoinstall_path self);
   Some (cloud_autoinstall_path self);
   Some (iso_autoinstall_path self)].

(** Modelled from the spec: the first candidate that exists; the ones
    after it are not looked at. *)
Fixpoint first_existing (fs : files) (locs : list (option string))
  : option string :=
  match locs with
  | [] => None
  | Some loc :: rest =>
      if path_exists fs loc then Some loc else first_existing fs rest
  | None :: rest => first_existing fs rest
  end.

(** Modelled from the spec: the copy of the winner to the root path;
    copying a file onto itself changes nothing. *)
Definition copy_file_if_exists (fs : files) (source target : string) : files :=
  match fs !! source with
  | Some contents => <[target := contents]> fs
  | None => fs
  end.

(** Modelled from the spec: an override that is given and names no file. *)
Definition bogus_argument (self : SubiquityServer) (fs : files) : bool :=
  match opts_autoinstall self with
  | Some p => negb (path_exists fs p)
  | None => false
  end.

(** Modelled from the spec: [SubiquityServer.select_autoinstall] of
    [subiquity/server/server.py], which is not among the sources.  The
    empty override disables autoinstall; an override that names no file is
    fatal; otherwise the first existing candidate wins.  What is returned
    and what is copied follows [TestAutoinstallLoad]: [test_arg_wins],
    [test_kernel_wins], [test_cloud_wins] and [test_iso_wins] all expect the
    root path back, holding the contents of the winner. *)
Definition select_autoinstall (self : SubiquityServer) (fs : files)
  : result (option string) * files :=
  if bool_decide (opts_autoinstall self = Some "") then (Return None, fs)
  else if bogus_argument self fs
  then (Raise (OtherError "Exception"
                 ("Autoinstall argument "
                    ++ default "" (opts_autoinstall self) ++ " not found")),
        fs)
  else
    match first_existing fs (locations self) with
    | None => (Return None, fs)
    | Some loc =>
        let rootpath := root_autoinstall_path self in
        (Return (Some rootpath), copy_file_if_exists fs loc rootpath)
    end.

(** Modelled from the spec: the keys owned by the registered sections. *)
Fixpoint controller_keys (cs : list Controller) : list string :=
  match cs with
  | [] => []
  | c :: rest =>
      match autoinstall_key c with
      | Some k => k :: controller_keys rest
      | None => controller_keys rest
      end
  end.

(** Modelled from the spec: [SubiquityServer._strip_controller_keys] of
    [subiquity/server/server.py], which is not among the sources: the
    document without the keys owned by registered sections. *)
Definition _strip_controller_keys (self : SubiquityServer)
  (autoinstall_config : dict) : dict :=
  List.filter
    (fun kv => negb (str_in (fst kv) (controller_keys (controllers self))))
    autoinstall_config.

(** Modelled from the spec: strict mode is on from version 2. *)
Definition strict (doc : dict) : bool :=
  match dict_get "version" doc with
  | Some (VInt n) => (2 <=? n)%Z
  | _ => false
  end.

(** Modelled from the spec: the keys that the base schema declares. *)
Definition reserved_keys (self : SubiquityServer) : list string :=
  map fst (properties (base_schema self)).

(** Modelled from the spec: the unknown top-level keys, which neither a
    registered section owns nor the base schema declares. *)
Definition unknown_keys (self : SubiquityServer) (doc : dict) : list string :=
  List.filter (fun k => negb (str_in k (reserved_keys self)))
    (keys (_strip_controller_keys self doc)).

(** Modelled from the spec: the entries of [interactive-sections] that are
    neither the wildcard nor the key of a registered section. *)
Definition bad_interactive_sections (self : SubiquityServer) (doc : dict)
  : list string :=
  match dict_get "interactive-sections" doc with
  | Some (VList l) =>
      List.filter
        (fun n => negb (String.eqb n "*"
                        || str_in n (controller_keys (controllers self))))
        (omap (fun v => match v with VStr n => Some n | _ => None end) l)
  | _ => []
  end.

(** Modelled from the spec: a violation is the offending section (or
    [None] at the top level) and a message. *)
Definition violation : Type := option string * string.

(** Modelled from the spec: the shape of the reserved keys, checked
    against the base schema. *)
Definition shape_violations (self : SubiquityServer) (doc : dict)
  : list violation :=
  if is_valid (base_schema self) (VDict doc) then []
  else [(None, "Malformed autoinstall in 'version or interactive-sections or early-commands' section")].

(** Modelled from the spec: an unknown name in [interactive-sections] is
    a violation. *)
Definition interactive_violations (self : SubiquityServer) (doc : dict)
  : list violation :=
  map (fun n => (Some "interactive-sections",
                 "Unknown interactive section " ++ Autoinstall.repr n))
    (bad_interactive_sections self doc).

(** Modelled from the spec: an unknown top-level key is a violation in
    strict mode only. *)
Definition unknown_key_violations (self : SubiquityServer) (doc : dict)
  : list violation :=
  if strict doc
  then map (fun k => (None, "Unrecognized top-level key " ++ Autoinstall.repr k))
         (unknown_keys self doc)
  else [].

(** Modelled from the spec: the Validator, a pure function that collects
    every violation before anything is raised. *)
Definition violations (self : SubiquityServer) (doc : dict) : list violation :=
  (shape_violations self doc
   ++ interactive_violations self doc
   ++ unknown_key_violations self doc)%list.

(** Modelled from the spec: outside strict mode an unknown top-level key
    is logged as a warning. *)
Definition warnings (self : SubiquityServer) (doc : dict)
  : list (level * string) :=
  if strict doc then []
  else map (fun k => (Warning, "Unrecognized top-level key "
                                 ++ Autoinstall.repr k))
         (unknown_keys self doc).

(** [sep.join(l)] *)
Fixpoint join (sep : string) (l : list string) : string :=
  match l with
  | [] => ""
  | [x] => x
  | x :: rest => x ++ sep ++ join sep rest
  end.

(** The updates of one attribute of the server: [log], [autoinstall_config],
    [autoinstall], [delivered]. *)
Definition add_log (self : SubiquityServer) (entries : list (level * string))
  : SubiquityServer :=
  {| opts_autoinstall := opts_autoinstall self;
     kernel_cmdline := kernel_cmdline self;
     root_autoinstall_path := root_autoinstall_path self;
     cloud_autoinstall_path := cloud_autoinstall_path self;
     iso_autoinstall_path := iso_autoinstall_path self;
     controllers := controllers self;
     base_schema := base_schema self;
     autoinstall := autoinstall self;
     autoinstall_config := autoinstall_config self;
     delivered := delivered self;
     log := (log self ++ entries)%list |}.

(** Modelled from the spec: [SubiquityServer.validate_autoinstall] of
    [subiquity/server/server.py], which is not among the sources.  It
    validates [self.autoinstall_config]; the sections' own fragments are
    left to the sections ("apt" in [test_server.py] is "Invalid but
    deferred").  All violations go into one
    [AutoinstallValidationError]. *)
Definition validate_autoinstall (self : SubiquityServer)
  : SubiquityServer * result unit :=
  let doc := autoinstall_config self in
  match violations self doc with
  | [] => (add_log self (warnings self doc), Return tt)
  | ((section, _) :: _) as vs =>
      let message := join "; " (map snd vs) in
      (add_log self [(Error, message)],
       Raise (Autoinstall.new_AutoinstallValidationError
                (default "top-level keys" section) (Some message)))
  end.

Definition set_config (self : SubiquityServer) (doc : dict) : SubiquityServer :=
  {| opts_autoinstall := opts_autoinstall self;
     kernel_cmdline := kernel_cmdline self;
     root_autoinstall_path := root_autoinstall_path self;
     cloud_autoinstall_path := cloud_autoinstall_path self;
     iso_autoinstall_path := iso_autoinstall_path self;
     controllers := controllers self;
     base_schema := base_schema self;
     autoinstall := autoinstall self;
     autoinstall_config := doc;
     delivered := delivered self;
     log := log self |}.

Definition set_autoinstall (self : SubiquityServer) (path : option string)
  : SubiquityServer :=
  {| opts_autoinstall := opts_autoinstall self;
     kernel_cmdline := kernel_cmdline self;
     root_autoinstall_path := root_autoinstall_path self;
     cloud_autoinstall_path := cloud_autoinstall_path self;
     iso_autoinstall_path := iso_autoinstall_path self;
     controllers := controllers self;
     base_schema := base_schema self;
     autoinstall := path;
     autoinstall_config := autoinstall_config self;
     delivered := delivered self;
     log := log self |}.

Definition deliver (self : SubiquityServer) (key : string)
  (payload : option value) : SubiquityServer :=
  {| opts_autoinstall := opts_autoinstall self;
     kernel_cmdline := kernel_cmdline self;
     root_autoinstall_path := root_autoinstall_path self;
     cloud_autoinstall_path := cloud_autoinstall_path self;
     iso_autoinstall_path := iso_autoinstall_path self;
     controllers := controllers self;
     base_schema := base_schema self;
     autoinstall := autoinstall self;
     autoinstall_config := autoinstall_config self;
     delivered := (delivered self ++ [(key, payload)])%list;
     log := log self |}.

(** Modelled from the spec: one pass of [load_autoinstall_config] over the
    sections: a section that takes part in this pass and
    has had no delivery yet gets [document[key]] or [None]; its fragment
    must accept a payload that is there. *)
Fixpoint deliver_all (only_early : bool) (cs : list Controller)
  (self : SubiquityServer) : SubiquityServer * result unit :=
  match cs with
  | [] => (self, Return tt)
  | c :: rest =>
      match autoinstall_key c with
      | None => deliver_all only_early rest self
      | Some key =>
          if (only_early && negb (early c))
             || str_in key (map fst (delivered self))
          then deliver_all only_early rest self
          else
            let payload := dict_get key (autoinstall_config self) in
            let accepted :=
              match autoinstall_schema c, payload with
              | Some fragment, Some v => is_valid fragment v
              | _, _ => true
              end in
            if accepted
            then deliver_all only_early rest (deliver self key payload)
            else (self, Raise (Autoinstall.new_AutoinstallValidationError
                                 key None))
      end
  end.

(** Modelled from the spec: [SubiquityServer.load_autoinstall_config] of
    [subiquity/server/server.py], which is not among the sources.  Every
    call reads the document again from [self.autoinstall] and validates it
    before any section sees its data; [safe_load] is [yaml.safe_load]. *)
Definition load_autoinstall_config (safe_load : string -> result value)
  (only_early : bool) (self : SubiquityServer) (fs : files)
  : SubiquityServer * result unit :=
  match autoinstall self with
  | None => (self, Return tt)
  | Some path =>
      match fs !! path with
      | None => (self, Raise (OtherError "FileNotFoundError" path))
      | Some text =>
          match safe_load text with
          | Raise e => (self, Raise e)
          | Return (VDict doc) =>
              let self1 := set_config self doc in
              match validate_autoinstall self1 with
              | (self2, Raise e) => (self2, Raise e)
              | (self2, Return _) =>
                  deliver_all only_early (controllers self2) self2
              end
          | Return _ =>
              (self, Raise (TypeError "autoinstall config is not a mapping"))
          end
      end
  end.

(** What the precedence property says, source by source: the contents of
    the highest-priority candidate that exists. *)
Definition winning_contents (self : SubiquityServer) (fs : files)
  : option string :=
  let at_path (p : option string) : option string := p ≫= (fs !!.) in
  match at_path (opts_autoinstall self) with
  | Some c => Some c
  | None =>
  match at_path (kernel_cmdline self !! "subiquity.autoinstallpath") with
  | Some c => Some c
  | None =>
  match fs !! root_autoinstall_path self with
  | Some c => Some c
  | None =>
  match fs !! cloud_autoinstall_path self with
  | Some c => Some c
  | None => fs !! iso_autoinstall_path self
  end end end end.

(** The path of the highest-priority candidate that exists. *)
Definition winning_path (self : SubiquityServer) (fs : files)
  : option string :=
  let present (p : option string) : option string :=
    p ≫= (fun q => if path_exists fs q then Some q else None) in
  match present (opts_autoinstall self) with
  | Some q => Some q
  | None =>
  match present (kernel_cmdline self !! "subiquity.autoinstallpath") with
  | Some q => Some q
  | None =>
  match present (Some (root_autoinstall_path self)) with
  | Some q => Some q
  | None =>
  match present (Some (cloud_autoinstall_path self)) with
  | Some q => Some q
  | None => present (Some (iso_autoinstall_path self))
  end end end end.

(** [key] is the key of a registered section. *)
Definition owned (self : SubiquityServer) (key : string) : bool :=
  existsb
    (fun c => match autoinstall_key c with
              | Some k => String.eqb key k
              | None => false
              end)
    (controllers self).

End Server.

(* ===================================================================== *)
(** * [scripts/validate-autoinstall-user-data.py] *)
(* ===================================================================== *)

Module ValidateScript.

Definition SUCCESS_MSG : string :=
  "Success: The provided autoinstall config validated successfully".
Definition FAILURE_MSG : string :=
  "Failure: The provided autoinstall config failed validation".

Definition link : string :=
  "https://canonical-subiquity.readthedocs-hosted.com/en/latest/reference/autoinstall-reference.html".

(** The parsed command line; [input] is what [args.input.read()] gives. *)
Record Namespace : Type := {
  input : string;
  expect_cloudconfig : bool;
  verbosity : nat;
  source_catalog : string;
  check_link : bool;
}.

(** What the script takes from outside: [yaml], the temporary directory,
    and the dry-run server.  [load_autoinstall_config only_early fs app]
    gives the lines that the event listeners of [app] print and either the
    server after the load or the exception raised. *)
Record Env : Type := {
  App : Type;
  safe_load : string -> result value;
  dump : value -> string;
  tempdir : string;
  make_app : Namespace -> result App;
  silence_start_finish : App -> App;
  silence_info : App -> App;
  set_autoinstall : string -> App -> App;
  start_reporting : App -> App;
  load_autoinstall_config :
    bool -> Server.files -> App -> list string * result App;
}.

(** What a run leaves behind: the lines printed with [print], the
    exceptions whose traceback went to standard error, and the value
    returned (the exit status) or the exception that escaped. *)
Record Run : Type := {
  printed : list string;
  tracebacks : list exn;
  exit : result Z;
}.

Definition not_wrapped_msg : string :=
  "Expected data to be wrapped in cloud-config but first line is not '#cloud-config'. Try passing --no-expect-cloudconfig.".

Definition no_autoinstall_msg : string :=
  "Expected data to be wrapped in cloud-config but could not find top level 'autoinstall' key.".

Definition is_autoinstall_str (v : value) : bool :=
  match v with VStr s => String.eqb s "autoinstall" | _ => false end.

(** [parse_cloud_config]; ["autoinstall" not in cc_data] and
    [cc_data["autoinstall"]] are spelled out for every kind of value that
    [yaml.safe_load] can return. *)
Definition parse_cloud_config (env : Env) (data : string) : result value :=
  match splitlines data with
  | [] => Raise (IndexError "list index out of range")
  | first_line :: _ =>
      if negb (String.eqb first_line "#cloud-config")
      then Raise (AssertionError not_wrapped_msg)
      else
        bind (safe_load env data) (fun cc_data =>
          match cc_data with
          | VDict d =>
              match dict_get "autoinstall" d with
              | None => Raise (AssertionError no_autoinstall_msg)
              | Some v => Return v
              end
          | VList l =>
              if existsb is_autoinstall_str l
              then Raise (TypeError "list indices must be integers or slices, not str")
              else Raise (AssertionError no_autoinstall_msg)
          | VStr s =>
              if contains "autoinstall" s
              then Raise (TypeError "string indices must be integers")
              else Raise (AssertionError no_autoinstall_msg)
          | VNone =>
              Raise (TypeError "argument of type 'NoneType' is not iterable")
          | VBool _ =>
              Raise (TypeError "argument of type 'bool' is not iterable")
          | VInt _ =>
              Raise (TypeError "argument of type 'int' is not iterable")
          end)
  end.

Definition failed (events : list string) (verbosity : nat) (exc : exn) : Run :=
  {| printed := (events ++ [str exc; FAILURE_MSG])%list;
     tracebacks := if (2 <? verbosity)%nat then [exc] else [];
     exit := Return 1%Z |}.

(** [verify_autoinstall]; [fs] is the file system the server reads
    [cfg_path] from. *)
Definition verify_autoinstall (env : Env) (app : App env) (cfg_path : string)
  (fs : Server.files) (verbosity : nat) : Run :=
  let app := if (verbosity <? 2)%nat then silence_start_finish env app else app in
  let app := if (verbosity <? 1)%nat then silence_info env app else app in
  let app := set_autoinstall env cfg_path app in
  let app := start_reporting env app in
  match load_autoinstall_config env true fs app with
  | (early_events, Raise exc) => failed early_events verbosity exc
  | (early_events, Return app) =>
      match load_autoinstall_config env false fs app with
      | (events, Raise exc) =>
          failed (early_events ++ events)%list verbosity exc
      | (events, Return _) =>
          {| printed := (early_events ++ events ++ [SUCCESS_MSG])%list;
             tracebacks := [];
             exit := Return 0%Z |}
      end
  end.

(** The autoinstall text that reaches the server: the input itself, or what
    [parse_cloud_config] finds in it, dumped again. *)
Definition unwrap (env : Env) (args : Namespace) : result string :=
  if expect_cloudconfig args
  then bind (parse_cloud_config env (input args))
         (fun ai_dict => Return (dump env ai_dict))
  else Return (input args).

(** [main]; [fs] is the file system at the start. *)
Definition main (env : Env) (args : Namespace) (fs : Server.files) : Run :=
  let str_data := input args in
  if check_link args && negb (contains link str_data)
  then {| printed := []; tracebacks := [];
          exit := Raise (AssertionError
                           "Documentation link missing from user data") |}
  else
    match unwrap env args with
    | Raise exc =>
        {| printed := [type_name exc ++ ": " ++ str exc; FAILURE_MSG];
           tracebacks := [];
           exit := Return 1%Z |}
    | Return ai_data =>
        match make_app env args with
        | Raise exc => {| printed := []; tracebacks := []; exit := Raise exc |}
        | Return app =>
            let path := tempdir env ++ "/autoinstall.yaml" in
            verify_autoinstall env app path (<[path := ai_data]> fs)
              (verbosity args)
        end
    end.






End ValidateScript.

(* ===================================================================== *)
(** * [subiquitycore/pubsub.py] *)
(* ===================================================================== *)

Module PubSub.

Section Hub.

(** [A]: what a broadcast passes on ([*args, **kwargs]); [W]: the state
    the subscribers act on. *)
Context {A W : Type}.

(** A subscribed method.  Calling it (and awaiting the coroutine it may
    return) changes the state and may raise.  A method that subscribes
    while a broadcast runs is outside this model. *)
Definition method : Type := A -> W -> W * option exn.

(** [MessageHub]: the subscriptions by channel, in the order they were
    made. *)
Definition MessageHub : Type := gmap string (list method).

(** [MessageHub.__init__] *)
Definition new_hub : MessageHub := ∅.

(** [MessageHub.subscribe]:
    [self.subscriptions.setdefault(channel, []).append(method)] *)
Definition subscribe (self : MessageHub) (channel : string) (m : method)
  : MessageHub :=
  <[channel := (default [] (self !! channel) ++ [m])%list]> self.

(** The loop of [abroadcast]: an exception ends it. *)
Fixpoint call_each (ms : list method) (args : A) (w : W) : W * option exn :=
  match ms with
  | [] => (w, None)
  | m :: rest =>
      match m args w with
      | (w', None) => call_each rest args w'
      | (w', Some exc) => (w', Some exc)
      end
  end.

(** [MessageHub.abroadcast] *)
Definition abroadcast (self : MessageHub) (channel : string) (args : A)
  (w : W) : W * option exn :=
  call_each (default [] (self !! channel)) args w.

End Hub.

Arguments method : clear implicits.
Arguments MessageHub : clear implicits.

End PubSub.

(* ===================================================================== *)
(** * [subiquity/client/client.py]: first screen and global overlays *)
(* ===================================================================== *)

Module Client.

(** What [select_initial_screen] reads of a controller: its name and its
    [endpoint_name] ([getattr(c, "endpoint_name", None)]). *)
Record Controller : Type := {
  name : string;
  endpoint_name : option string;
}.


(** The loop of [select_initial_screen]: [index = i] for every controller
    with the name, so the last one stays. *)
Fixpoint find_index (last_screen : string) (instances : list Controller)
  (i index : nat) : nat :=
  match instances with
  | [] => index
  | controller :: rest =>
      find_index last_screen rest (S i)
        (if String.eqb (name controller) last_screen then i else index)
  end.

(** [select_initial_screen], up to the call of [_select_initial_screen]:
    [state_file] is the contents of the [last-screen] state file, if it
    exists. *)
Definition initial_index (updated : bool) (state_file : option string)
  (instances : list Controller) : nat :=
  let last_screen :=
    if updated
    then match state_file with
         | Some contents => Some (strip_ws contents)
         | None => None
         end
    else None in
  match last_screen with
  | Some screen =>
      if String.eqb screen "" then 0
      else find_index screen instances 0 0
  | None => 0
  end.




(** ** [restart] *)

(** What [restart] reads and writes of the client: whether a foreground
    process runs ([self.fg_proc is not None]), the flags [restarting] and
    [ui.block_input], whether the urwid loop exists, and what the command
    line is built from. *)
Record Restartable : Type := {
  fg_proc : bool;
  restarting : bool;
  block_input : bool;
  has_urwid_loop : bool;
  dry_run : bool;
  executable : string;
  argv_tail : list string;
  socket : string;
  server_pid : option string;
}.

(** What [restart] does to the outside, in order.  [Exec] replaces the
    process: nothing follows it. *)
Inductive effect : Type :=
| KillFgProcTask (remove_last_screen restart_server : bool)
| RemoveLastScreen
| RestartServerTask
| StopLoop
| Exec (cmdline : list string).

(** [SubiquityClient.cmdline] and [dryrun_cmdline_module] *)
Definition cmdline : list string := ["snap"; "run"; "subiquity"].
Definition dryrun_cmdline_module : string := "subiquity.cmd.tui".

Definition set_restarting (self : Restartable) (block : bool) : Restartable :=
  {| fg_proc := fg_proc self;
     restarting := true;
     block_input := block || block_input self;
     has_urwid_loop := has_urwid_loop self;
     dry_run := dry_run self;
     executable := executable self;
     argv_tail := argv_tail self;
     socket := socket self;
     server_pid := server_pid self |}.

(** The command line that [restart] executes. *)
Definition restart_cmdline (self : Restartable) : list string :=
  if dry_run self
  then ([executable self; "-m"; dryrun_cmdline_module]
          ++ argv_tail self
          ++ ["--socket"; socket self]
          ++ match server_pid self with
             | Some pid => ["--server-pid"; pid]
             | None => []
             end)%list
  else cmdline.

(** [restart]: the client afterwards and the effects, in order. *)
Definition restart (self : Restartable)
  (remove_last_screen restart_server : bool) : Restartable * list effect :=
  if fg_proc self
  then (set_restarting self false,
        [KillFgProcTask remove_last_screen restart_server])
  else
    let removed := if remove_last_screen then [RemoveLastScreen] else [] in
    if restart_server
    then (set_restarting self true, (removed ++ [RestartServerTask])%list)
    else (self,
          (removed
             ++ (if has_urwid_loop self then [StopLoop] else [])
             ++ [Exec (restart_cmdline self)])%list).

(** ** [resp_hook] *)

Section RespHook.

(** [R]: an [ErrorReportRef]. *)
Context {R : Type}.

(** What [response.raise_for_status()] raises, if anything: a
    [ClientResponseError] with its status, another [aiohttp.ClientError],
    or an exception that is no [ClientError]. *)
Inductive status_failure : Type :=
| ClientResponseError (status : nat)
| OtherClientError
| NotClientError (exc : exn).

(** A response: its headers (by lower-case name) and what
    [raise_for_status] does. *)
Record Response : Type := {
  headers : gmap string string;
  raise_for_status : option status_failure;
}.

(** What [resp_hook] takes from outside: [from_json(ErrorReportRef, _)],
    [json.loads], the reference of the report that
    [error_reporter.make_apport_report] makes ([None] when it makes none),
    and whether [restart] comes back (a foreground process was running) or
    replaces the process. *)
Record HookEnv : Type := {
  from_json : string -> result R;
  loads : string -> result value;
  report_ref : option R;
  restart_returns : bool;
}.

(** How a call of [resp_hook] ends. *)
Inductive outcome : Type :=
| Returned
| Replaced
| RaisedAbort (error_report_ref : option R)
| RaisedSkip
| RaisedConfirm
| RaisedRecoverableClientError (detail : value)
| Raised (exc : exn).

(** The [try] block with its handler. *)
Definition check_status (env : HookEnv) (response : Response) : outcome :=
  match raise_for_status response with
  | None => Returned
  | Some (NotClientError exc) => Raised exc
  | Some failure =>
      let recoverable :=
        match failure with
        | ClientResponseError status => (status =? 422)%nat
        | _ => false
        end in
      if recoverable
      then match headers response !! "x-error-msg" with
           | None => Raised (OtherError "KeyError" "'x-error-msg'")
           | Some msg =>
               match loads env msg with
               | Return detail => RaisedRecoverableClientError detail
               | Raise exc => Raised exc
               end
           end
      else match report_ref env with
           | Some ref => RaisedAbort (Some ref)
           | None =>
               Raised (OtherError "AttributeError"
                         "'NoneType' object has no attribute 'ref'")
           end
  end.

(** What follows the check of [x-updated]. *)
Definition after_update_check (env : HookEnv) (response : Response)
  : outcome :=
  let status := headers response !! "x-status" in
  if bool_decide (status = Some "skip") then RaisedSkip
  else if bool_decide (status = Some "confirm") then RaisedConfirm
  else match headers response !! "x-error-report" with
       | Some report =>
           match from_json env report with
           | Return ref => RaisedAbort (Some ref)
           | Raise exc => Raised exc
           end
       | None => check_status env response
       end.

(** [resp_hook]: [self.server_updated] afterwards, whether [restart] was
    called, and how the call ends. *)
Definition resp_hook (env : HookEnv) (server_updated : option string)
  (response : Response) : option string * bool * outcome :=
  match headers response !! "x-updated" with
  | Some updated =>
      match server_updated with
      | None => (Some updated, false, after_update_check env response)
      | Some seen =>
          if bool_decide (seen = updated)
          then (server_updated, false, after_update_check env response)
          else (server_updated, true,
                if restart_returns env then RaisedAbort None else Replaced)
      end
  | None => (server_updated, false, after_update_check env response)
  end.

End RespHook.

Arguments Response : clear implicits.
Arguments HookEnv : clear implicits.
Arguments outcome : clear implicits.

Section Overlays.

(** Overlays are compared as Python compares them ([==]). *)
Context {O : Type} `{EqDecision O}.

(** What the view in [self.ui.body] is asked to do. *)
Inductive ui_call : Type :=
| ShowStretchyOverlay (overlay : O)
| RemoveOverlay (overlay : O).

(** The part of the client the overlay methods touch: the list of global
    overlays, whether [self.ui.body] is a [BaseView], and the calls made on
    it so far. *)
Record Overlays : Type := {
  global_overlays : list O;
  body_is_view : bool;
  ui_calls : list ui_call;
}.

(** [list.remove(x)] where [x] is in the list: the first occurrence
    goes. *)
Fixpoint remove_first (x : O) (l : list O) : list O :=
  match l with
  | [] => []
  | y :: rest => if decide (x = y) then rest else y :: remove_first x rest
  end.

(** [add_global_overlay] *)
Definition add_global_overlay (self : Overlays) (overlay : O) : Overlays :=
  {| global_overlays := (global_overlays self ++ [overlay])%list;
     body_is_view := body_is_view self;
     ui_calls :=
       if body_is_view self
       then (ui_calls self ++ [ShowStretchyOverlay overlay])%list
       else ui_calls self |}.

(** [remove_global_overlay] *)
Definition remove_global_overlay (self : Overlays) (overlay : O) : Overlays :=
  {| global_overlays :=
       if bool_decide (overlay ∈ global_overlays self)
       then remove_first overlay (global_overlays self)
       else global_overlays self;
     body_is_view := body_is_view self;
     ui_calls :=
       if body_is_view self
       then (ui_calls self ++ [RemoveOverlay overlay])%list
       else ui_calls self |}.

End Overlays.

Arguments ui_call : clear implicits.
Arguments Overlays : clear implicits.

End Client.

(* ===================================================================== *)
(** * The set-ups of the test suites, and small environments *)
(* ===================================================================== *)

Module Fixtures.

Import KernelCrashDumps CloudInit Server ValidateScript.

(** The string with the given bytes, and the UTF-8 encodings of U+0085
    (next line), U+00A0 (no-break space) and U+2028 (line separator). *)
Definition utf8 (bytes : list nat) : string :=
  string_of_list_ascii (map ascii_of_nat bytes).

Definition next_line : string := utf8 [194; 133].
Definition no_break_space : string := utf8 [194; 160].
Definition line_separator : string := utf8 [226; 128; 168].

(** A host on which [dpkg-query] prints [version], every awaited command
    runs into its timeout, and nothing parses or matches. *)
Definition stalled_host (version : string) : Host :=
  {| Coroutine := list string;
     run_command := fun _ =>
       {| stdout := version; stderr := ""; returncode := 0 |};
     arun_command := fun cmd _ => cmd;
     wait_for := fun _ _ => Raise TimeoutError;
     json_loads := fun _ => None;
     re_search := fun _ _ => None |}.

(** The server of [TestAutoinstallLoad.asyncSetUp]: no override, an empty
    kernel command line, no controllers. *)
Definition test_server : SubiquityServer :=
  {| opts_autoinstall := None;
     kernel_cmdline := ∅;
     root_autoinstall_path := "/tmp/autoinstall.yaml";
     cloud_autoinstall_path := "/tmp/run/subiquity/cloud.autoinstall.yaml";
     iso_autoinstall_path := "/tmp/cdrom/autoinstall.yaml";
     controllers := [];
     base_schema := default_base_schema;
     autoinstall := None;
     autoinstall_config := [];
     delivered := [];
     log := [] |}.

Definition with_sources (arg kernel : option string) : SubiquityServer :=
  {| opts_autoinstall := arg;
     kernel_cmdline :=
       match kernel with
       | Some k => {[ "subiquity.autoinstallpath" := k ]}
       | None => ∅
       end;
     root_autoinstall_path := root_autoinstall_path test_server;
     cloud_autoinstall_path := cloud_autoinstall_path test_server;
     iso_autoinstall_path := iso_autoinstall_path test_server;
     controllers := [];
     base_schema := default_base_schema;
     autoinstall := None;
     autoinstall_config := [];
     delivered := [];
     log := [] |}.

(** The files of [test_arg_wins]. *)
Definition all_files : files :=
  <["/tmp/arg.autoinstall.yaml" := "arg"]>
    (<["/tmp/kernel.autoinstall.yaml" := "kernel"]>
       (<["/tmp/autoinstall.yaml" := "root"]>
          (<["/tmp/run/subiquity/cloud.autoinstall.yaml" := "cloud"]>
             (<["/tmp/cdrom/autoinstall.yaml" := "iso"]> ∅)))).

(** The files of [test_cloud_wins]. *)
Definition cloud_and_iso : files :=
  <["/tmp/run/subiquity/cloud.autoinstall.yaml" := "cloud"]>
    (<["/tmp/cdrom/autoinstall.yaml" := "iso"]> ∅).

(** The controllers of [test_autoinstall__strip_controller_keys], as far
    as the test looks: the mirror controller owns ["apt"]. *)
Definition with_mirror : SubiquityServer :=
  {| opts_autoinstall := None;
     kernel_cmdline := ∅;
     root_autoinstall_path := root_autoinstall_path test_server;
     cloud_autoinstall_path := cloud_autoinstall_path test_server;
     iso_autoinstall_path := iso_autoinstall_path test_server;
     controllers :=
       [{| autoinstall_key := Some "apt"; autoinstall_schema := None;
           early := false |};
        {| autoinstall_key := None; autoinstall_schema := None;
           early := false |}];
     base_schema := default_base_schema;
     autoinstall := None;
     autoinstall_config := [];
     delivered := [];
     log := [] |}.

(** A server with one section, which owns ["stuff"] and takes an
    integer. *)
Definition with_stuff : SubiquityServer :=
  {| opts_autoinstall := None;
     kernel_cmdline := ∅;
     root_autoinstall_path := root_autoinstall_path test_server;
     cloud_autoinstall_path := cloud_autoinstall_path test_server;
     iso_autoinstall_path := iso_autoinstall_path test_server;
     controllers :=
       [{| autoinstall_key := Some "stuff";
           autoinstall_schema := Some (typed TInteger);
           early := false |}];
     base_schema := default_base_schema;
     autoinstall := None;
     autoinstall_config := [];
     delivered := [];
     log := [] |}.

(** The document of [test_autoinstall_validation__enforce_top_level_keys]. *)
Definition top_level_doc (version : Z) (x y : value) : dict :=
  [("version", VInt version); ("apt", x); ("literally-anything", y)].

(** The document of [test_early_commands_changes_autoinstall]. *)
Definition early_doc (cmd : string) : dict :=
  [("version", VInt 1); ("early-commands", VList [VStr cmd])].

(** [yaml.safe_load] on the two texts of the test, and nothing else. *)
Definition sed_cmd : string := "sed -i -e '$ a stuff: things' /tmp/autoinstall.yaml".

Definition two_texts (text : string) : result value :=
  if String.eqb text "before"
  then Return (VDict (early_doc sed_cmd))
  else if String.eqb text "after"
       then Return (VDict (early_doc sed_cmd ++ [("stuff", VStr "things")])%list)
       else Raise (OtherError "YAMLError" text).

(** An environment for examples: [yaml.safe_load] knows one wrapped
    document, the server accepts the text ["version: 1"] in both phases and
    rejects every other one in the early phase. *)
Definition wrapped_input : string :=
  "#cloud-config" ++ String nl "" ++ "autoinstall: {version: 1}".

Definition example_env : Env :=
  {| App := string;
     safe_load := fun text =>
       if String.eqb text wrapped_input
       then Return (VDict [("autoinstall", VDict [("version", VInt 1)])])
       else Return (VDict [("runcmd", VList [])]);
     dump := fun _ => "version: 1";
     tempdir := "/tmp/td";
     make_app := fun _ => Return "";
     silence_start_finish := fun app => app;
     silence_info := fun app => app;
     set_autoinstall := fun path _ => path;
     start_reporting := fun app => app;
     load_autoinstall_config := fun only_early fs app =>
       match fs !! app with
       | Some "version: 1" => ([], Return app)
       | _ => ([], Raise (AutoinstallValidationError "version"
                            "Malformed autoinstall in 'version' section"))
       end |}.

Definition example_args (data : string) (wrapped link_wanted : bool)
  : Namespace :=
  {| input := data; expect_cloudconfig := wrapped; verbosity := 0;
     source_catalog := "examples/sources/all.yaml";
     check_link := link_wanted |}.

(** A host on which [dpkg-query] prints [version] and every awaited
    command completes with [sp]; [json.loads] gives [json] and the pattern
    of [get_schema_failure_sources] matches with the groups [groups]. *)
Definition answering_host (version : string) (sp : CompletedProcess)
  (json : option value) (groups : option (string -> string)) : Host :=
  {| Coroutine := list string;
     run_command := fun _ =>
       {| stdout := version; stderr := ""; returncode := 0 |};
     arun_command := fun cmd _ => cmd;
     wait_for := fun _ _ => Return sp;
     json_loads := fun _ => json;
     re_search := fun _ _ => groups |}.

(** The output of [cloud-init status --format=json], as far as it is read
    here, and of [cloud-init schema --system] with two unexpected keys. *)
Definition status_output : CompletedProcess :=
  {| stdout := "{...}"; stderr := ""; returncode := 0 |}.

Definition status_json : value :=
  VDict [("status", VStr "done");
         ("extended_status", VStr "degraded done");
         ("recoverable_errors",
          VDict [("WARNING", VList [VStr "w1"; VStr "w2"]);
                 ("ERROR", VList [VStr "e1"])])].

(** The output of [cloud-init status --wait] without the JSON format. *)
Definition legacy_output : CompletedProcess :=
  {| stdout := "status: done" ++ String nl "";
     stderr := ""; returncode := 0 |}.

Definition schema_output : CompletedProcess :=
  {| stdout := "";
     stderr := "('some-key', 'another-key' were unexpected)";
     returncode := 1 |}.

Definition schema_groups (group : string) : string :=
  "'some-key', 'another-key'".

(** The controllers of a client, as far as the first screen looks. *)
Definition three_screens : list Client.Controller :=
  [{| Client.name := "Welcome"; Client.endpoint_name := None |};
   {| Client.name := "Network"; Client.endpoint_name := Some "network" |};
   {| Client.name := "Identity"; Client.endpoint_name := Some "identity" |}].

End Fixtures.

(* ===================================================================== *)
(** * Theorems *)
(* ===================================================================== *)

Section KernelCrashDumpsFacts.

Import KernelCrashDumps Fixtures.

(** The test cases of [TestKernelCrashDumpsSchema.test_valid_configs]. *)
Example valid_enabled_only :
  is_valid autoinstall_schema (VDict [("enabled", VBool true)]) = true.
Proof. reflexivity. Qed.

Example invalid_memory_without_enabled :
  is_valid autoinstall_schema
    (VDict [("memory-min", VStr ""); ("memory-reserved", VStr "")]) = false.
Proof. reflexivity. Qed.

(** The tests of [TestKernelCrashDumpsModel]. *)
Example test_automatic_decision :
  render default_model = [("kernel-crash-dumps", VDict [("enabled", VNone)])].
Proof. reflexivity. Qed.

Example test_render_formatting :
  render {| enabled := Some true; memory_min := Some "4G";
            memory_reserved := Some "512M"; crashkernel := Some "4G:512M" |}
  = [("kernel-crash-dumps",
      VDict [("enabled", VBool true); ("memory-min", VStr "4G");
             ("memory-reserved", VStr "512M");
             ("crashkernel", VStr "4G:512M")])].
Proof. reflexivity. Qed.

(** [make_autoinstall] does not read the attribute for a model without
    [enabled]; for a model with [enabled] the lookup comes first, and its
    failure is the outcome. *)
Example make_autoinstall_automatic :
  make_autoinstall default_model
    (Raise no_attribute_crashkernel) = Return [].
Proof. reflexivity. Qed.

Example make_autoinstall_enabled :
  make_autoinstall
    {| enabled := Some true; memory_min := None; memory_reserved := None;
       crashkernel := Some "4G:512M" |}
    (Raise no_attribute_crashkernel)
  = Raise (no_attribute_crashkernel).
Proof. reflexivity. Qed.

(** The schema on a dictionary, keyword by keyword. *)
Lemma autoinstall_schema_on_dict (d : dict) :
  is_valid autoinstall_schema (VDict d)
  = negb (claimed_rejected d || ill_typed d || lone_memory_key d).
Proof.
  unfold claimed_rejected, ill_typed, lone_memory_key, has_unknown_key.
  cbn [is_valid autoinstall_schema has_type forallb all_of not_ required typed
       map fst count_true].
  unfold key_in.
  change (forallb (fun k => str_in k ["enabled"; "memory-min"; "memory-reserved"; "crashkernel"]) (keys d))
    with (forallb (fun k => str_in k known_keys) (keys d)).
  destruct (forallb (fun k => str_in k known_keys) (keys d));
    destruct (dict_get "enabled" d) as [[]|];
    destruct (dict_get "memory-min" d) as [[]|];
    destruct (dict_get "memory-reserved" d) as [[]|];
    destruct (dict_get "crashkernel" d) as [[]|];
    reflexivity.
Qed.

(** C3 (as amended).  A model with [enabled = None] renders exactly
    [{"kernel-crash-dumps": {"enabled": None}}].  A model with
    [enabled = True] and [crashkernel = "4G:512M"] renders a section that
    has [enabled] and [crashkernel] with these values and also the keys
    [memory-min] and [memory-reserved], bound to the attributes of the
    model ([None] when they are unset): [render] always writes the four
    keys. *)
Theorem render_writes_all_keys :
  (forall mm mr ck,
      render {| enabled := None; memory_min := mm; memory_reserved := mr;
                crashkernel := ck |}
      = [("kernel-crash-dumps", VDict [("enabled", VNone)])])
  /\ (forall mm mr,
        let m := {| enabled := Some true; memory_min := mm;
                    memory_reserved := mr; crashkernel := Some "4G:512M" |} in
        keys (render m) = ["kernel-crash-dumps"]
        /\ keys (rendered_section m)
           = ["enabled"; "memory-min"; "memory-reserved"; "crashkernel"]
        /\ dict_get "enabled" (rendered_section m) = Some (VBool true)
        /\ dict_get "crashkernel" (rendered_section m) = Some (VStr "4G:512M")
        /\ dict_get "memory-min" (rendered_section m) = Some (of_opt_str mm)
        /\ dict_get "memory-reserved" (rendered_section m)
           = Some (of_opt_str mr)).
Proof.
  split.
  - intros mm mr ck. reflexivity.
  - intros mm mr m. subst m. repeat split.
Qed.

(** C3, the claim as written fails: with [enabled = True] and
    [crashkernel = "4G:512M"] (the other attributes at their default) the
    rendered section does contain [memory-min] and [memory-reserved]. *)
Lemma render_crashkernel_keeps_memory_keys :
  let m := {| enabled := Some true; memory_min := None;
              memory_reserved := None; crashkernel := Some "4G:512M" |} in
  key_in "memory-min" (rendered_section m) = true
  /\ key_in "memory-reserved" (rendered_section m) = true
  /\ rendered_section m
     = [("enabled", VBool true); ("memory-min", VNone);
        ("memory-reserved", VNone); ("crashkernel", VStr "4G:512M")].
Proof. repeat split. Qed.

(** C7 (as amended).  The schema fragment rejects a section exactly when
    it is not a dictionary, lacks [enabled], has an unknown key, has a
    value of the wrong type ([enabled] not a boolean, another key not a
    string), has [crashkernel] together with [memory-min] or
    [memory-reserved], or has only one of [memory-min] and
    [memory-reserved].  The four documents of the claim come out as the
    claim says. *)
Theorem schema_rejects_exactly :
  (forall v, is_valid autoinstall_schema v = negb (rejected v))
  /\ is_valid autoinstall_schema
       (VDict [("enabled", VBool true); ("crashkernel", VStr "")]) = true
  /\ is_valid autoinstall_schema
       (VDict [("enabled", VBool true); ("memory-min", VStr "");
               ("memory-reserved", VStr "")]) = true
  /\ is_valid autoinstall_schema (VDict [("crashkernel", VStr "")]) = false
  /\ is_valid autoinstall_schema
       (VDict [("enabled", VBool true); ("crashkernel", VStr "");
               ("memory-min", VStr ""); ("memory-reserved", VStr "")])
     = false.
Proof.
  split; [|repeat split].
  intros v. destruct v as [| | | | |d]; try reflexivity.
  apply autoinstall_schema_on_dict.
Qed.

(** C7, the claim as written fails: [{enabled: true, memory-min: ""}] has
    [enabled], no unknown key and no [crashkernel], and the schema rejects
    it; so does [{enabled: "yes"}]. *)
Lemma schema_rejects_lone_memory_min :
  claimed_rejected [("enabled", VBool true); ("memory-min", VStr "")] = false
  /\ is_valid autoinstall_schema
       (VDict [("enabled", VBool true); ("memory-min", VStr "")]) = false
  /\ claimed_rejected [("enabled", VStr "yes")] = false
  /\ is_valid autoinstall_schema (VDict [("enabled", VStr "yes")]) = false.
Proof. repeat split. Qed.

End KernelCrashDumpsFacts.

Section CloudInitFacts.

Import CloudInit Fixtures.

Example version_of_package :
  cloud_init_version (stalled_host "24.1~3gb729a4c4-0ubuntu1") = "24.1".
Proof. reflexivity. Qed.

Example legacy_status :
  read_legacy_status ("status: done" ++ String nl "") = VStr "done"
  /\ read_legacy_status "status:" = VNone.
Proof. split; reflexivity. Qed.

Example legacy_status_no_break_space :
  read_legacy_status ("status:" ++ no_break_space ++ "done") = VStr "done"
  /\ read_legacy_status
       ("x" ++ line_separator ++ "status: running" ++ next_line ++ "y")
     = VStr "running".
Proof. split; reflexivity. Qed.

Example split_and_strip :
  map (strip "'"%char) (split ", " "'some-key', 'another-key'")
  = ["some-key"; "another-key"].
Proof. reflexivity. Qed.

Lemma leb_lex_le (a b : string) : String.leb a b = lex_le a b.
Proof.
  revert b. induction a as [|x a IH]; intros [|y b]; try reflexivity.
  specialize (IH b). unfold String.leb in *.
  cbn [String.compare lex_le]. unfold Ascii.compare, nat_of_ascii.
  destruct (N.compare_spec (N_of_ascii x) (N_of_ascii y)) as [E|L|G].
  - rewrite E, Nat.ltb_irrefl. exact IH.
  - by rewrite (proj2 (Nat.ltb_lt _ _)) by lia.
  - rewrite (proj2 (Nat.ltb_ge _ _)) by lia.
    by rewrite (proj2 (Nat.ltb_lt _ _)) by lia.
Qed.

(** C10.  The feature gates compare the version as a string.  For every
    host, [supports_format_json] is [cloud_init_version() >= "22.4"] and
    [supports_recoverable_errors] is [cloud_init_version() >= "23.4"] in
    the order of Python on strings, where the first differing character
    decides.  So a version 9.1, below 22.4 and 23.4 read as numbers, passes
    both gates, and a version 22.10, above 22.4 read as numbers, fails the
    first. *)
Theorem feature_gates_are_lexicographic (h : Host) :
  supports_format_json h = lex_le "22.4" (cloud_init_version h)
  /\ supports_recoverable_errors h = lex_le "23.4" (cloud_init_version h)
  /\ (cloud_init_version h = "9.1" ->
      numerically_below "9.1" "22.4" = true
      /\ numerically_below "9.1" "23.4" = true
      /\ supports_format_json h = true
      /\ supports_recoverable_errors h = true)
  /\ (cloud_init_version h = "22.10" ->
      numerically_below "22.10" "22.4" = false
      /\ supports_format_json h = false).
Proof.
  unfold supports_format_json, supports_recoverable_errors, str_ge.
  rewrite !leb_lex_le.
  split; [done|]. split; [done|].
  split; intros ->; by repeat split.
Qed.

Lemma feature_gates_are_lexicographic_witness :
  cloud_init_version (stalled_host "9.1-0ubuntu1") = "9.1"
  /\ supports_format_json (stalled_host "9.1-0ubuntu1") = true
  /\ supports_recoverable_errors (stalled_host "9.1-0ubuntu1") = true
  /\ cloud_init_version (stalled_host "22.10~2g1-0ubuntu1") = "22.10"
  /\ supports_format_json (stalled_host "22.10~2g1-0ubuntu1") = false
  /\ supports_format_json (stalled_host "22.3-1") = lex_le "22.4" "22.3".
Proof.
  destruct (feature_gates_are_lexicographic (stalled_host "9.1-0ubuntu1"))
    as (_ & _ & H9 & _).
  destruct (feature_gates_are_lexicographic
              (stalled_host "22.10~2g1-0ubuntu1")) as (_ & _ & _ & H22).
  destruct (feature_gates_are_lexicographic (stalled_host "22.3-1"))
    as (Hlow & _).
  split; [reflexivity|].
  split; [apply (H9 eq_refl)|].
  split; [apply (H9 eq_refl)|].
  split; [reflexivity|].
  split; [apply (H22 eq_refl)|].
  exact Hlow.
Defined.

(** C9.  [get_schema_failure_sources] awaits the schema probe with the
    bound 10 and [cloud_init_status_wait] awaits the status command with
    the bound 600, and the outcome of that wait decides the result.  When
    the wait times out the first returns the empty list and the second
    [(False, "timeout")].  When the wait returns the completed process, the
    first returns the keys matched in its standard error (none without a
    match) and the second returns [True] with the status read from its
    standard output.  Any other exception of the wait is passed on.  So
    neither ever raises a timeout to its caller. *)
Theorem probes_fail_softly (h : Host) :
  let schema_wait :=
    wait_for h
      (arun_command h ["cloud-init"; "schema"; "--system"] (Some true)) 10 in
  let status_wait :=
    wait_for h (arun_command h (status_wait_cmd h) None) 600 in
  (schema_wait = Raise TimeoutError ->
   get_schema_failure_sources h = Return [])
  /\ (forall sp, schema_wait = Return sp ->
      get_schema_failure_sources h
      = Return match re_search h unexpected_pattern (stderr sp) with
               | None => []
               | Some group =>
                   map (strip "'"%char) (split ", " (group "args"))
               end)
  /\ (forall exc, schema_wait = Raise exc -> exc <> TimeoutError ->
      get_schema_failure_sources h = Raise exc)
  /\ (status_wait = Raise TimeoutError ->
      cloud_init_status_wait h = Return (false, VStr "timeout"))
  /\ (forall sp, status_wait = Return sp ->
      cloud_init_status_wait h
      = if supports_format_json h
        then bind (read_json_extended_status h (stdout sp))
               (fun status => Return (true, status))
        else Return (true, read_legacy_status (stdout sp)))
  /\ (forall exc, status_wait = Raise exc -> exc <> TimeoutError ->
      cloud_init_status_wait h = Raise exc)
  /\ is_timeout (get_schema_failure_sources h) = false
  /\ is_timeout (cloud_init_status_wait h) = false.
Proof.
  intros schema_wait status_wait. subst schema_wait status_wait.
  unfold get_schema_failure_sources, cloud_init_status_wait, status_wait_cmd.
  split; [by intros ->|].
  split.
  { intros sp ->. by destruct (re_search h _ _). }
  split; [intros exc -> Hexc; by destruct exc|].
  split; [by intros ->|].
  split; [by intros sp ->|].
  split; [intros exc -> Hexc; by destruct exc|].
  split.
  - destruct (wait_for h _ 10) as [sp|[]]; try reflexivity.
    destruct (re_search h _ _); reflexivity.
  - destruct (wait_for h _ 600) as [sp|[]]; try reflexivity.
    destruct (supports_format_json h); [|reflexivity].
    unfold read_json_extended_status.
    destruct (json_loads h _) as [[]|]; reflexivity.
Qed.

Lemma probes_fail_softly_witness :
  get_schema_failure_sources (stalled_host "24.1") = Return []
  /\ cloud_init_status_wait (stalled_host "24.1")
     = Return (false, VStr "timeout")
  /\ get_schema_failure_sources
       (answering_host "24.1" schema_output None (Some schema_groups))
     = Return ["some-key"; "another-key"]
  /\ cloud_init_status_wait
       (answering_host "24.1" status_output (Some status_json) None)
     = Return (true, VStr "degraded done")
  /\ cloud_init_status_wait
       (answering_host "0.7.9" legacy_output None None)
     = Return (true, VStr "done").
Proof.
  destruct (probes_fail_softly (stalled_host "24.1"))
    as (H1 & _ & _ & H2 & _).
  destruct (probes_fail_softly
              (answering_host "24.1" schema_output None (Some schema_groups)))
    as (_ & H3 & _).
  destruct (probes_fail_softly
              (answering_host "24.1" status_output (Some status_json) None))
    as (_ & _ & _ & _ & H4 & _).
  destruct (probes_fail_softly
              (answering_host "0.7.9" legacy_output None None))
    as (_ & _ & _ & _ & H5 & _).
  split; [apply H1; reflexivity|].
  split; [apply H2; reflexivity|].
  split; [rewrite (H3 schema_output eq_refl); reflexivity|].
  split; [rewrite (H4 status_output eq_refl); reflexivity|].
  rewrite (H5 legacy_output eq_refl); reflexivity.
Defined.

End CloudInitFacts.

Section ServerFacts.

Import Server Fixtures.

Example test_arg_wins :
  let r := select_autoinstall
             (with_sources (Some "/tmp/arg.autoinstall.yaml")
                (Some "/tmp/kernel.autoinstall.yaml")) all_files in
  r.1 = Return (Some "/tmp/autoinstall.yaml")
  /\ r.2 !! "/tmp/autoinstall.yaml" = Some "arg".
Proof. vm_compute. split; reflexivity. Qed.

Example test_kernel_wins :
  let r := select_autoinstall
             (with_sources None (Some "/tmp/kernel.autoinstall.yaml"))
             all_files in
  r.1 = Return (Some "/tmp/autoinstall.yaml")
  /\ r.2 !! "/tmp/autoinstall.yaml" = Some "kernel".
Proof. vm_compute. split; reflexivity. Qed.

Example test_root_wins :
  let r := select_autoinstall test_server all_files in
  r.1 = Return (Some "/tmp/autoinstall.yaml")
  /\ r.2 !! "/tmp/autoinstall.yaml" = Some "root".
Proof. vm_compute. split; reflexivity. Qed.

Example test_cloud_wins :
  let r := select_autoinstall test_server cloud_and_iso in
  r.1 = Return (Some "/tmp/autoinstall.yaml")
  /\ r.2 !! "/tmp/autoinstall.yaml" = Some "cloud".
Proof. vm_compute. split; reflexivity. Qed.

Example test_iso_wins :
  let r := select_autoinstall test_server
             (<["/tmp/cdrom/autoinstall.yaml" := "iso"]> ∅) in
  r.1 = Return (Some "/tmp/autoinstall.yaml")
  /\ r.2 !! "/tmp/autoinstall.yaml" = Some "iso".
Proof. vm_compute. split; reflexivity. Qed.

Example test_nobody_wins :
  (select_autoinstall test_server ∅).1 = Return None.
Proof. reflexivity. Qed.

Example test_bogus_autoinstall_argument :
  raised (select_autoinstall
            (with_sources (Some "/tmp/nonexistant.yaml") None) all_files).1
  = true.
Proof. vm_compute. reflexivity. Qed.

(** The loop over the candidates finds the file whose contents the
    precedence order names. *)
Lemma first_existing_wins (self : SubiquityServer) (fs : files) (c : string) :
  bogus_argument self fs = false ->
  winning_contents self fs = Some c ->
  exists loc, first_existing fs (locations self) = Some loc
              /\ fs !! loc = Some c.
Proof.
  unfold bogus_argument, winning_contents, locations, first_existing, path_exists.
  intros Hb Hw.
  destruct (opts_autoinstall self) as [p|]; simpl in *.
  { destruct (fs !! p) eqn:Hp; [|done]. simplify_eq. eauto. }
  destruct (kernel_cmdline self !! "subiquity.autoinstallpath") as [k|]; simpl in *.
  { destruct (fs !! k) eqn:Hk; [simplify_eq; eauto|].
    repeat case_match; simplify_eq; eauto. }
  repeat case_match; simplify_eq; eauto.
Qed.

(** The two readings of the precedence order agree: the winning contents
    are the contents at the winning path. *)
Lemma winning_path_contents (self : SubiquityServer) (fs : files) :
  winning_contents self fs = winning_path self fs ≫= (fs !!.).
Proof.
  unfold winning_contents, winning_path, path_exists.
  destruct (opts_autoinstall self) as [p|]; simpl;
    [destruct (fs !! p) eqn:Hp; simpl; [by rewrite Hp|]|];
    (destruct (kernel_cmdline self !! "subiquity.autoinstallpath") as [q|];
     simpl; [destruct (fs !! q) eqn:Hq; simpl; [by rewrite Hq|]|]);
    repeat (case_match; simpl; simplify_eq; try done).
Qed.

(** What the selection does when a candidate exists. *)
Lemma select_autoinstall_chooses
  (self : SubiquityServer) (fs : files) (c : string) :
  opts_autoinstall self <> Some "" ->
  bogus_argument self fs = false ->
  winning_contents self fs = Some c ->
  select_autoinstall self fs
  = (Return (Some (root_autoinstall_path self)),
     <[root_autoinstall_path self := c]> fs)
  /\ (select_autoinstall self fs).2 !! root_autoinstall_path self = Some c.
Proof.
  intros Hne Hb Hw.
  destruct (first_existing_wins self fs c Hb Hw) as (loc & Hloc & Hc).
  assert (select_autoinstall self fs
          = (Return (Some (root_autoinstall_path self)),
             <[root_autoinstall_path self := c]> fs)) as ->.
  { unfold select_autoinstall. rewrite bool_decide_eq_false_2 by done.
    rewrite Hb, Hloc. unfold copy_file_if_exists. by rewrite Hc. }
  split; [done|]. apply lookup_insert_eq.
Qed.

(** C1 (as amended).  Whenever at least one candidate exists (and the
    override, if given, is not empty and names a file), [select_autoinstall]
    returns the root path, not the winner's own path, and has copied the
    contents of the highest-priority candidate that exists (override, then
    kernel command line, root, cloud, iso) to the root path, whoever wins;
    the file at the returned path therefore holds the winner's contents, and
    no other file has changed. *)
Theorem select_autoinstall_precedence
  (self : SubiquityServer) (fs : files) (c : string) :
  opts_autoinstall self <> Some "" ->
  bogus_argument self fs = false ->
  winning_contents self fs = Some c ->
  select_autoinstall self fs
  = (Return (Some (root_autoinstall_path self)),
     <[root_autoinstall_path self := c]> fs)
  /\ winning_path self fs ≫= (fs !!.) = Some c
  /\ (select_autoinstall self fs).2 !! root_autoinstall_path self = Some c
  /\ (forall p, p <> root_autoinstall_path self ->
                (select_autoinstall self fs).2 !! p = fs !! p).
Proof.
  intros Hne Hb Hw.
  destruct (select_autoinstall_chooses self fs c Hne Hb Hw) as [Hsel Hroot].
  split; [done|]. split; [by rewrite <- winning_path_contents|].
  split; [done|].
  intros p Hp. rewrite Hsel. simpl. by apply lookup_insert_ne.
Qed.

Lemma select_autoinstall_precedence_witness :
  select_autoinstall test_server cloud_and_iso
  = (Return (Some "/tmp/autoinstall.yaml"),
     <["/tmp/autoinstall.yaml" := "cloud"]> cloud_and_iso).
Proof.
  destruct (select_autoinstall_precedence test_server cloud_and_iso "cloud")
    as [H _]; [discriminate | reflexivity | reflexivity | exact H].
Defined.

(** C1, the claim as written fails: in [test_arg_wins] the
    highest-priority candidate that exists is the override, and the path
    returned is the root path, not the path of the override. *)
Lemma select_autoinstall_returns_root_not_winner :
  let self := with_sources (Some "/tmp/arg.autoinstall.yaml")
                (Some "/tmp/kernel.autoinstall.yaml") in
  winning_path self all_files = Some "/tmp/arg.autoinstall.yaml"
  /\ (select_autoinstall self all_files).1
     = Return (Some "/tmp/autoinstall.yaml")
  /\ Some "/tmp/autoinstall.yaml" <> winning_path self all_files.
Proof. vm_compute. repeat split. discriminate. Qed.

(** C6.  With the empty string as override, [select_autoinstall] returns
    [None] and touches no file, whatever the kernel command line says and
    whichever files exist. *)
Theorem select_autoinstall_disabled (self : SubiquityServer) (fs : files) :
  opts_autoinstall self = Some "" ->
  select_autoinstall self fs = (Return None, fs).
Proof.
  intros H. unfold select_autoinstall. by rewrite bool_decide_eq_true_2.
Qed.

(** [test_autoinstall_disabled] *)
Lemma select_autoinstall_disabled_witness :
  select_autoinstall (with_sources (Some "") (Some "kernel")) all_files
  = (Return None, all_files).
Proof.
  apply (select_autoinstall_disabled (with_sources (Some "") (Some "kernel"))).
  reflexivity.
Defined.

Lemma str_in_controller_keys (cs : list Controller) (key : string) :
  str_in key (controller_keys cs)
  = existsb
      (fun c => match autoinstall_key c with
                | Some k => String.eqb key k
                | None => false
                end) cs.
Proof.
  induction cs as [|c cs IH]; [reflexivity|].
  simpl. destruct (autoinstall_key c); simpl; by rewrite IH.
Qed.


(** [test_autoinstall_validation__error_type], with the base schema of
    [TestAutoinstallValidation.asyncSetUp]. *)
Example test_autoinstall_validation__error_type :
  raised (validate_autoinstall
            {| opts_autoinstall := None;
               kernel_cmdline := ∅;
               root_autoinstall_path := "/tmp/autoinstall.yaml";
               cloud_autoinstall_path := "/tmp/cloud.autoinstall.yaml";
               iso_autoinstall_path := "/tmp/cdrom/autoinstall.yaml";
               controllers := [];
               base_schema :=
                 Schema (Some TObject) [("some-key", typed TBoolean)] []
                   None [] None true None;
               autoinstall := None;
               autoinstall_config := [("some-key", VStr "not a bool")];
               delivered := [];
               log := [] |}).2
  = true.
Proof. reflexivity. Qed.

Example test_autoinstall__strip_controller_keys :
  keys (_strip_controller_keys with_mirror
          [("version", VInt 1);
           ("interactive-sections", VList [VStr "identity"]);
           ("apt", VStr "...");
           ("invalid_key", VStr "...")])
  = ["version"; "interactive-sections"; "invalid_key"].
Proof. reflexivity. Qed.


Lemma unknown_keys_top_level_doc
  (self : SubiquityServer) (version : Z) (x y : value) :
  base_schema self = default_base_schema ->
  owned self "apt" = true ->
  owned self "literally-anything" = false ->
  unknown_keys self (top_level_doc version x y) = ["literally-anything"].
Proof.
  unfold owned. rewrite <- !str_in_controller_keys. intros Hbase Hapt Hany.
  unfold unknown_keys, reserved_keys, _strip_controller_keys, top_level_doc.
  rewrite Hbase. cbn [List.filter fst]. rewrite Hapt, Hany. cbn [negb].
  by destruct (str_in "version" _).
Qed.

(** C2.  Let the base schema be the server's own, ["apt"] the key of a
    registered section and ["literally-anything"] not.  On [{version: 1, apt: x,
    literally-anything: y}], [validate_autoinstall] returns and logs a
    warning about the unknown key.  On the same document with [version: 2]
    it raises an [AutoinstallValidationError] whose message names
    ["literally-anything"] and does not name ["apt"], and logs an error. *)
Theorem validation_strict_from_version_2
  (self : SubiquityServer) (x y : value) :
  base_schema self = default_base_schema ->
  owned self "apt" = true ->
  owned self "literally-anything" = false ->
  let lenient := validate_autoinstall (set_config self (top_level_doc 1 x y)) in
  let strict := validate_autoinstall (set_config self (top_level_doc 2 x y)) in
  let message := "Unrecognized top-level key 'literally-anything'" in
  lenient.2 = Return tt
  /\ log lenient.1 = (log self ++ [(Warning, message)])%list
  /\ strict.2 = Raise (AutoinstallValidationError "top-level keys" message)
  /\ log strict.1 = (log self ++ [(Error, message)])%list
  /\ contains "literally-anything" (str (AutoinstallValidationError
                                          "top-level keys" message)) = true
  /\ contains "apt" (str (AutoinstallValidationError
                            "top-level keys" message)) = false.
Proof.
  intros Hbase Hapt Hany.
  pose proof (unknown_keys_top_level_doc self 1 x y Hbase Hapt Hany) as H1.
  pose proof (unknown_keys_top_level_doc self 2 x y Hbase Hapt Hany) as H2.
  assert (forall doc, unknown_keys (set_config self doc) = unknown_keys self)
    as Hset by reflexivity.
  unfold validate_autoinstall, violations, unknown_key_violations, warnings,
    interactive_violations, bad_interactive_sections, shape_violations.
  cbn [autoinstall_config base_schema set_config].
  rewrite !Hset, H1, H2, Hbase.
  repeat split.
Qed.

Lemma validation_strict_from_version_2_witness :
  (validate_autoinstall
     (set_config with_mirror
        (top_level_doc 1 (VStr "Invalid but deferred") (VStr "lmao")))).2
  = Return tt
  /\ (validate_autoinstall
       (set_config with_mirror
          (top_level_doc 2 (VStr "Invalid but deferred") (VStr "lmao")))).2
     = Raise (AutoinstallValidationError "top-level keys"
                "Unrecognized top-level key 'literally-anything'").
Proof.
  pose proof (validation_strict_from_version_2 with_mirror
                (VStr "Invalid but deferred") (VStr "lmao")
                eq_refl eq_refl eq_refl) as H.
  split; apply H.
Defined.

Lemma not_reserved (k : string) :
  str_in k ["version"; "interactive-sections"; "early-commands"] = false ->
  String.eqb "version" k = false
  /\ String.eqb "interactive-sections" k = false
  /\ String.eqb "early-commands" k = false.
Proof.
  unfold str_in. cbn [existsb].
  rewrite !orb_false_iff, !(String.eqb_sym k). tauto.
Qed.

(** A pass over the sections records deliveries and nothing else. *)
Lemma deliver_all_keeps (only_early : bool) (cs : list Controller)
  (self : SubiquityServer) :
  autoinstall_config (deliver_all only_early cs self).1
  = autoinstall_config self
  /\ autoinstall (deliver_all only_early cs self).1 = autoinstall self
  /\ controllers (deliver_all only_early cs self).1 = controllers self
  /\ base_schema (deliver_all only_early cs self).1 = base_schema self.
Proof.
  revert self. induction cs as [|c cs IH]; intros self;
    cbn [deliver_all]; [done|].
  destruct (autoinstall_key c) as [key|]; [|apply IH].
  destruct (_ || _); [apply IH|].
  destruct (match autoinstall_schema c with Some _ => _ | None => _ end);
    [|done].
  apply (IH (deliver self key (dict_get key (autoinstall_config self)))).
Qed.

(** A load that finds a mapping at the selected path makes it the
    configuration, whatever the validation and the sections then say. *)
Lemma load_sets_config (safe_load : string -> result value)
  (only_early : bool) (self : SubiquityServer) (fs : files)
  (path text : string) (doc : dict) :
  autoinstall self = Some path ->
  fs !! path = Some text ->
  safe_load text = Return (VDict doc) ->
  let r := load_autoinstall_config safe_load only_early self fs in
  autoinstall_config r.1 = doc
  /\ autoinstall r.1 = Some path
  /\ controllers r.1 = controllers self
  /\ base_schema r.1 = base_schema self.
Proof.
  intros Hpath Hfile Hload.
  unfold load_autoinstall_config, validate_autoinstall.
  rewrite Hpath, Hfile, Hload.
  destruct (violations _ _) as [|[section message] vs]; cbn [fst snd].
  - match goal with
    | |- context [deliver_all ?o ?cs ?s] =>
        destruct (deliver_all_keeps o cs s) as (H1 & H2 & H3 & H4)
    end.
    by rewrite H1, H2, H3, H4.
  - done.
Qed.

(** A load on a server without controllers that finds [text] at the
    selected path, where [text] is a document without violations: the load
    returns. *)
Lemma load_returns (safe_load : string -> result value)
  (only_early : bool) (self : SubiquityServer) (fs : files)
  (path text : string) (doc : dict) :
  controllers self = [] ->
  autoinstall self = Some path ->
  fs !! path = Some text ->
  safe_load text = Return (VDict doc) ->
  violations (set_config self doc) doc = [] ->
  (load_autoinstall_config safe_load only_early self fs).2 = Return tt.
Proof.
  intros Hcs Hpath Hfile Hload Hv.
  unfold load_autoinstall_config, validate_autoinstall.
  rewrite Hpath, Hfile, Hload. cbn [autoinstall_config set_config].
  rewrite Hv. cbn [controllers add_log set_config]. by rewrite Hcs.
Qed.

(** C4.  Take any server whose selected path holds
    [{version: 1, early-commands: [cmd]}], and let [fs'] be the file system
    once [cmd] has run, where the document at that path has a further key
    [k] bound to [v].  After the early load the configuration is the
    original document, without [k]; after the full load on [fs'] it is the
    original document followed by [k: v], so it has the appended key and
    the original keys with their values.  This holds whichever sections are
    registered and whatever the validation and the sections make of the
    two documents; with no section registered, the default base schema and
    [k] not a reserved key, both loads return. *)
Theorem early_commands_change_is_seen
  (safe_load : string -> result value) (self : SubiquityServer)
  (fs fs' : files) (path text text' cmd k : string) (v : value) :
  autoinstall self = Some path ->
  fs !! path = Some text ->
  safe_load text = Return (VDict (early_doc cmd)) ->
  key_in k (early_doc cmd) = false ->
  fs' !! path = Some text' ->
  safe_load text' = Return (VDict (early_doc cmd ++ [(k, v)])%list) ->
  let early := load_autoinstall_config safe_load true self fs in
  let full := load_autoinstall_config safe_load false early.1 fs' in
  autoinstall_config early.1 = early_doc cmd
  /\ dict_get k (autoinstall_config early.1) = None
  /\ autoinstall_config full.1 = (early_doc cmd ++ [(k, v)])%list
  /\ dict_get k (autoinstall_config full.1) = Some v
  /\ dict_get "version" (autoinstall_config full.1) = Some (VInt 1)
  /\ dict_get "early-commands" (autoinstall_config full.1)
     = Some (VList [VStr cmd])
  /\ (controllers self = [] ->
      base_schema self = default_base_schema ->
      str_in k ["version"; "interactive-sections"; "early-commands"] = false ->
      early.2 = Return tt /\ full.2 = Return tt).
Proof.
  intros Hpath Hfile Hload Hk Hfile' Hload' early full.
  destruct (load_sets_config safe_load true self fs path text (early_doc cmd)
              Hpath Hfile Hload) as (He1 & He2 & He3 & He4).
  fold early in He1, He2, He3, He4.
  destruct (load_sets_config safe_load false early.1 fs' path text'
              (early_doc cmd ++ [(k, v)])%list He2 Hfile' Hload')
    as (Hf1 & _).
  fold full in Hf1.
  assert (String.eqb k "version" = false
          /\ String.eqb k "early-commands" = false) as [Hk1 Hk2].
  { unfold key_in, early_doc in Hk. cbn -[String.eqb] in Hk.
    destruct (String.eqb k "version"); [done|].
    by destruct (String.eqb k "early-commands"). }
  rewrite He1, Hf1.
  split; [done|].
  split.
  { unfold key_in in Hk. by destruct (dict_get k (early_doc cmd)). }
  split; [done|].
  split.
  { unfold early_doc. cbn -[String.eqb]. by rewrite Hk1, Hk2, String.eqb_refl. }
  split; [reflexivity|]. split; [reflexivity|].
  intros Hcs Hbase Hres.
  destruct (not_reserved k Hres) as (Hr1 & Hr2 & Hr3).
  split.
  - apply (load_returns safe_load true self fs path text (early_doc cmd));
      try done.
    unfold violations, shape_violations, interactive_violations,
      unknown_key_violations, bad_interactive_sections, unknown_keys,
      reserved_keys, _strip_controller_keys.
    cbn [controllers base_schema set_config].
    by rewrite Hcs, Hbase.
  - apply (load_returns safe_load false early.1 fs' path text'
             (early_doc cmd ++ [(k, v)])%list); try done.
    + by rewrite He3.
    + unfold violations, shape_violations, interactive_violations,
        unknown_key_violations, bad_interactive_sections, unknown_keys,
        reserved_keys, _strip_controller_keys.
      cbn [controllers base_schema set_config]. rewrite He3, He4, Hcs, Hbase.
      unfold early_doc. cbn -[String.eqb]. rewrite Hr2, Hr3. reflexivity.
Qed.

(** [test_early_commands_changes_autoinstall], and the same documents on a
    server with a section that owns the appended key and refuses its
    value: the full load raises, and the configuration has the key. *)
Lemma early_commands_change_is_seen_witness :
  let self := with_sources (Some "/tmp/arg.autoinstall.yaml") None in
  let fs : files := {[ "/tmp/arg.autoinstall.yaml" := "before" ]} in
  let selected := select_autoinstall self fs in
  let fs' : files := <["/tmp/autoinstall.yaml" := "after"]> selected.2 in
  let early :=
    load_autoinstall_config two_texts true
      (set_autoinstall self (Some "/tmp/autoinstall.yaml")) selected.2 in
  let full := load_autoinstall_config two_texts false early.1 fs' in
  let early_owned :=
    load_autoinstall_config two_texts true
      (set_autoinstall with_stuff (Some "/tmp/autoinstall.yaml")) selected.2 in
  let full_owned :=
    load_autoinstall_config two_texts false early_owned.1 fs' in
  selected.1 = Return (Some "/tmp/autoinstall.yaml")
  /\ autoinstall_config early.1 = early_doc sed_cmd
  /\ autoinstall_config full.1
     = [("version", VInt 1); ("early-commands", VList [VStr sed_cmd]);
        ("stuff", VStr "things")]
  /\ early.2 = Return tt
  /\ full.2 = Return tt
  /\ raised full_owned.2 = true
  /\ dict_get "stuff" (autoinstall_config full_owned.1)
     = Some (VStr "things").
Proof.
  intros self fs selected fs' early full early_owned full_owned.
  pose proof (early_commands_change_is_seen two_texts
                (set_autoinstall self (Some "/tmp/autoinstall.yaml"))
                selected.2 fs' "/tmp/autoinstall.yaml"
                "before" "after" sed_cmd "stuff" (VStr "things")) as H.
  pose proof (early_commands_change_is_seen two_texts
                (set_autoinstall with_stuff (Some "/tmp/autoinstall.yaml"))
                selected.2 fs' "/tmp/autoinstall.yaml"
                "before" "after" sed_cmd "stuff" (VStr "things")) as H'.
  cbv zeta in H, H'.
  destruct H as (He & _ & Hf & _ & _ & _ & Hret);
    [reflexivity | reflexivity | reflexivity | reflexivity | reflexivity
    | reflexivity | ].
  destruct H' as (_ & _ & _ & Hk & _);
    [reflexivity | reflexivity | reflexivity | reflexivity | reflexivity
    | reflexivity | ].
  destruct Hret as [Hr1 Hr2]; [reflexivity | reflexivity | reflexivity |].
  split; [reflexivity|].
  split; [exact He|]. split; [exact Hf|].
  split; [exact Hr1|]. split; [exact Hr2|].
  split; [reflexivity | exact Hk].
Defined.

End ServerFacts.

Section ValidateScriptFacts.

Import ValidateScript Fixtures.











End ValidateScriptFacts.

(* ===================================================================== *)
(** * Further properties of [subiquity/cloudinit.py] *)
(* ===================================================================== *)

Section CloudInitVersionFacts.

Import CloudInit.

Lemma before_dash_or_tilde_cut (s : string) :
  exists rest,
    s = before_dash_or_tilde s ++ rest
    /\ (rest = "" \/ String.prefix "-" rest = true
        \/ String.prefix "~" rest = true).
Proof.
  induction s as [|c r (rest & Heq & Hrest)]; simpl.
  - exists "". auto.
  - destruct (Ascii.eqb_spec c "-"%char) as [->|Hd]; simpl.
    + exists (String "-" r). split; [done|]. right; left.
      simpl. destruct r; reflexivity.
    + destruct (Ascii.eqb_spec c "~"%char) as [->|Ht]; simpl.
      * exists (String "~" r). split; [done|]. right; right.
        simpl. destruct r; reflexivity.
      * exists rest. split; [|done].
        change (String c r = String c (before_dash_or_tilde r ++ rest)).
        by f_equal.
Qed.

Lemma contains_single (c : ascii) (s : string) :
  contains (String c "") s
  = existsb (Ascii.eqb c) (list_ascii_of_string s).
Proof.
  induction s as [|a r IH]; [reflexivity|].
  cbn [contains list_ascii_of_string existsb]. rewrite <- IH.
  f_equal. simpl.
  destruct (ascii_dec c a) as [->|Hne].
  - rewrite Ascii.eqb_refl. by destruct r.
  - by apply Ascii.eqb_neq in Hne as ->.
Qed.

Lemma before_dash_or_tilde_clean (s : string) :
  existsb (fun c => Ascii.eqb "-"%char c || Ascii.eqb "~"%char c)
    (list_ascii_of_string (before_dash_or_tilde s)) = false.
Proof.
  induction s as [|c r IH]; [reflexivity|]. cbn -[Ascii.eqb].
  destruct (Ascii.eqb_spec c "-"%char) as [->|Hd]; [reflexivity|].
  destruct (Ascii.eqb_spec c "~"%char) as [->|Ht]; [reflexivity|].
  cbn -[Ascii.eqb]. rewrite IH.
  apply not_eq_sym, Ascii.eqb_neq in Hd. apply not_eq_sym, Ascii.eqb_neq in Ht.
  by rewrite Hd, Ht.
Qed.

(** X1.  [cloud_init_version] is the output of [dpkg-query] up to its
    first ['-'] or ['~']: the output is the version followed by nothing or
    by a rest that starts with one of the two, and the version holds
    neither character. *)
Theorem cloud_init_version_cut (h : Host) :
  let out :=
    stdout (run_command h ["dpkg-query"; "-W"; "-f=${Version}"; "cloud-init"]) in
  (exists rest,
      out = cloud_init_version h ++ rest
      /\ (rest = "" \/ String.prefix "-" rest = true
          \/ String.prefix "~" rest = true))
  /\ contains "-" (cloud_init_version h) = false
  /\ contains "~" (cloud_init_version h) = false.
Proof.
  intros out. unfold cloud_init_version. fold out.
  split; [apply before_dash_or_tilde_cut|].
  pose proof (before_dash_or_tilde_clean out) as H.
  rewrite !contains_single.
  induction (list_ascii_of_string (before_dash_or_tilde out)) as [|c l IH];
    [done|].
  simpl in *. apply orb_false_iff in H as [Hc Hl].
  apply orb_false_iff in Hc as [-> ->]. simpl. by apply IH.
Qed.

(** X2.  The two feature gates are ordered: a cloud-init that supports
    recoverable errors supports the JSON format, because ["22.4"] is below
    ["23.4"] in the order of strings, which is transitive. *)
Theorem recoverable_errors_imply_format_json (h : Host) :
  supports_recoverable_errors h = true ->
  supports_format_json h = true.
Proof.
  unfold supports_recoverable_errors, supports_format_json, str_ge.
  intros H. apply Is_true_true.
  assert (String.le "22.4" "23.4") as H1 by (by apply Is_true_true).
  assert (String.le "23.4" (cloud_init_version h)) as H2
    by (by apply Is_true_true).
  exact (transitivity H1 H2).
Qed.

Lemma recoverable_errors_imply_format_json_witness :
  supports_format_json (Fixtures.stalled_host "24.1~3gb729a4c4-0ubuntu1") = true.
Proof.
  apply (recoverable_errors_imply_format_json
           (Fixtures.stalled_host "24.1~3gb729a4c4-0ubuntu1")).
  reflexivity.
Defined.

End CloudInitVersionFacts.

Section CloudInitStatusFacts.

Import CloudInit.

Lemma append_not_empty (a : string) (c : ascii) :
  String.eqb (a ++ String c "") "" = false.
Proof. by destruct a. Qed.

Lemma app_String (c : ascii) (a b : string) :
  String c a ++ b = String c (a ++ b).
Proof. reflexivity. Qed.

Lemma app_empty_r (a : string) : a ++ "" = a.
Proof.
  induction a as [|c a IH]; [reflexivity|].
  by rewrite app_String, IH.
Qed.

Lemma app_snoc (a : string) (c : ascii) (b : string) :
  (a ++ String c "") ++ b = a ++ String c b.
Proof.
  induction a as [|x a IH]; [reflexivity|].
  by rewrite !app_String, IH.
Qed.

(** A suffix of [a ++ String c ""] is [String c ""] or a suffix of [a]
    followed by [c]. *)
Lemma suffix_snoc (a : string) (c : ascii) (p q : string) :
  a ++ String c "" = p ++ q -> q <> "" ->
  exists q', q = q' ++ String c "" /\ a = p ++ q'.
Proof.
  revert p. induction a as [|x a IH]; intros p H Hq.
  - destruct p as [|y p].
    + change (String c "" = q) in H. subst q. by exists "".
    + rewrite app_String in H. injection H as -> H.
      destruct p; [by destruct q|discriminate].
  - destruct p as [|y p].
    + change (String x a ++ String c "" = q) in H. subst q.
      by exists (String x a).
    + rewrite !app_String in H. injection H as -> H.
      destruct (IH p H Hq) as (q' & -> & ->). by exists q'.
Qed.

(** Whether a string starts with whitespace is decided by its first
    bytes. *)
Lemma ws_len_prefix (q s : string) :
  ws_len q <> 0 -> ws_len (q ++ s) <> 0.
Proof.
  destruct q as [|a [|b [|c q]]]; rewrite ?app_String; unfold ws_len;
    try done.
  - by destruct (is_space a).
  - destruct (is_space a); [done|]. by destruct (is_space2 a b).
Qed.

Lemma clean_before_spaceless (cur s : string) :
  clean_before cur s -> spaceless cur = true.
Proof.
  unfold spaceless. intros H. apply negb_true_iff.
  induction cur as [|c cur IH]; [reflexivity|].
  cbn [has_space]. apply orb_false_iff. split.
  - apply negb_false_iff, Nat.eqb_eq.
    destruct (ws_len (String c cur)) eqn:E; [done|].
    exfalso. apply (ws_len_prefix (String c cur) s); [by rewrite E|].
    by apply (H "").
  - apply IH. intros p q -> Hq. by apply (H (String c p)).
Qed.

Lemma clean_before_snoc (cur : string) (c : ascii) (r : string) :
  clean_before cur (String c r) -> ws_len (String c r) = 0 ->
  clean_before (cur ++ String c "") r.
Proof.
  intros H Hc p q Heq Hq.
  destruct (suffix_snoc _ _ _ _ Heq Hq) as (q' & -> & ->).
  rewrite app_snoc. destruct q' as [|x q']; [done|].
  by apply (H p).
Qed.

Lemma split_ws_aux_words (s : string) (skip : nat) (cur : string) :
  (skip = 0 -> clean_before cur s) ->
  (skip <> 0 -> cur = "") ->
  Forall (fun w => String.eqb w "" = false /\ spaceless w = true)
    (split_ws_aux skip cur s).
Proof.
  revert skip cur.
  induction s as [|c r IH]; intros skip cur Hclean Hskip;
    cbn [split_ws_aux].
  - destruct (String.eqb cur "") eqn:He; [constructor|].
    destruct skip as [|k]; [|by rewrite Hskip in He].
    repeat constructor; [done|].
    by apply (clean_before_spaceless cur ""), Hclean.
  - destruct skip as [|k].
    + specialize (Hclean eq_refl).
      destruct (ws_len (String c r)) as [|k] eqn:Hw.
      * apply IH; [|done]. intros _. by apply clean_before_snoc.
      * apply Forall_app. split.
        -- destruct (String.eqb cur "") eqn:He; [constructor|].
           repeat constructor; [done|].
           by apply (clean_before_spaceless cur (String c r)).
        -- apply IH; [|done]. by intros _ [|] [|].
    + rewrite (Hskip ltac:(done)).
      apply IH; [|done]. by intros _ [|] [|].
Qed.

Lemma split_ws_words (s : string) :
  Forall (fun w => String.eqb w "" = false /\ spaceless w = true)
    (split_ws s).
Proof. apply split_ws_aux_words; [|done]. by intros _ [|] [|]. Qed.

(** The outcome of the loop of [read_legacy_status] on the lines. *)
Lemma first_status_spec (lines : list string) :
  match first_status lines with
  | VNone =>
      Forall (fun l => startswith "status:" l = false
                       \/ split_ws l !! 1%nat = None) lines
  | VStr w =>
      exists before line after,
        lines = (before ++ line :: after)%list
        /\ startswith "status:" line = true
        /\ split_ws line !! 1%nat = Some w
        /\ Forall (fun l => startswith "status:" l = false
                            \/ split_ws l !! 1%nat = None) before
  | _ => False
  end.
Proof.
  induction lines as [|line rest IH]; cbn [first_status]; [constructor|].
  destruct (startswith "status:" line) eqn:Hs.
  - destruct (split_ws line) as [|w0 [|w ws]] eqn:Hw.
    + destruct (first_status rest) as [| | |w| |]; try done.
      * constructor; [right; by rewrite Hw|done].
      * destruct IH as (before & l & after & -> & H1 & H2 & H3).
        exists (line :: before), l, after. repeat split; try done.
        constructor; [right; by rewrite Hw|done].
    + destruct (first_status rest) as [| | |w| |]; try done.
      * constructor; [right; by rewrite Hw|done].
      * destruct IH as (before & l & after & -> & H1 & H2 & H3).
        exists (line :: before), l, after. repeat split; try done.
        constructor; [right; by rewrite Hw|done].
    + exists [], line, rest. repeat split; try done. by rewrite Hw.
  - destruct (first_status rest) as [| | |w| |]; try done.
    + constructor; [by left|done].
    + destruct IH as (before & l & after & -> & H1 & H2 & H3).
      exists (line :: before), l, after. repeat split; try done.
      constructor; [by left|done].
Qed.

(** X3.  [read_legacy_status] gives the second word of the first line
    that starts with ["status:"] and has a second word; that word is not
    empty and holds no whitespace.  It gives [None] exactly when no line
    is like that.  It gives nothing else. *)
Theorem read_legacy_status_spec (stream : string) :
  match read_legacy_status stream with
  | VNone =>
      Forall (fun l => startswith "status:" l = false
                       \/ split_ws l !! 1%nat = None) (splitlines stream)
  | VStr w =>
      String.eqb w "" = false
      /\ spaceless w = true
      /\ exists before line after,
           splitlines stream = (before ++ line :: after)%list
           /\ startswith "status:" line = true
           /\ split_ws line !! 1%nat = Some w
           /\ Forall (fun l => startswith "status:" l = false
                               \/ split_ws l !! 1%nat = None) before
  | _ => False
  end.
Proof.
  unfold read_legacy_status.
  pose proof (first_status_spec (splitlines stream)) as H.
  destruct (first_status (splitlines stream)) as [| | |w| |]; try done.
  destruct H as (before & line & after & Heq & Hs & Hw & Hb).
  pose proof (split_ws_words line) as Hwords.
  apply list_elem_of_lookup_2 in Hw as Hin.
  rewrite Forall_forall in Hwords. destruct (Hwords w Hin) as [H1 H2].
  split; [done|]. split; [done|]. by exists before, line, after.
Qed.

(** X4.  [cloud_init_status_wait] answers [False] only for a timeout, and
    then with the status ["timeout"]: it returns [(False, status)] exactly
    when the wait of 600 seconds timed out and [status] is ["timeout"]. *)
Theorem status_wait_false_iff_timeout (h : Host) (status : value) :
  cloud_init_status_wait h = Return (false, status)
  <-> wait_for h (arun_command h (status_wait_cmd h) None) 600
      = Raise TimeoutError
      /\ status = VStr "timeout".
Proof.
  unfold cloud_init_status_wait, status_wait_cmd.
  destruct (wait_for h _ 600) as [sp|exc].
  - split; [|by intros [? _]].
    destruct (supports_format_json h); [|discriminate].
    destruct (read_json_extended_status h (stdout sp)); discriminate.
  - destruct exc; (split; [intros H; by simplify_eq | intros [H ->]; by simplify_eq]).
Qed.

End CloudInitStatusFacts.

Section CloudInitSchemaFacts.

Import CloudInit.

Lemma dict_get_in (k : string) (d : dict) (v : value) :
  dict_get k d = Some v -> In (k, v) d.
Proof.
  induction d as [|[k' v'] d IH]; simpl; [done|].
  destruct (String.eqb_spec k k') as [->|Hne].
  - intros [= ->]. by left.
  - intros H. right. by apply IH.
Qed.

Lemma dict_get_key (k : string) (v : value) (d : dict) :
  In (k, v) d -> exists v', dict_get k d = Some v'.
Proof.
  induction d as [|[k' v'] d IH]; simpl; [done|].
  destruct (String.eqb_spec k k') as [->|Hne]; [eauto|].
  intros [[= -> _]|H]; [done|by apply IH].
Qed.

Lemma extend_all_lists (d : dict) (ks : list string) (acc : list value) :
  Forall (fun kv => is_list kv.2 = true) d ->
  (forall k, In k ks -> exists v, dict_get k d = Some v) ->
  extend_all (VDict d) (map VStr ks) acc
  = Return (acc ++ flat_map (errors_at d) ks)%list.
Proof.
  intros Hd. revert acc. induction ks as [|k ks IH]; intros acc Hks; simpl.
  - by rewrite app_nil_r.
  - destruct (Hks k) as [v Hv]; [by left|].
    unfold errors_at at 1. rewrite Hv.
    apply dict_get_in, list_elem_of_In in Hv as Hin.
    rewrite Forall_forall in Hd. specialize (Hd _ Hin). simpl in Hd.
    destruct v as [| | | |l|]; try done. simpl.
    rewrite IH by (intros k' Hk'; apply Hks; by right).
    by rewrite <- app_assoc.
Qed.

(** X6.  On a status whose [recoverable_errors] maps every level to a
    list, [read_recoverable_errors] with a level returns the list of that
    level (the empty list for a level that is not there), and without a
    level it returns the lists of all levels, concatenated in the order of
    the levels in the document. *)
Theorem read_recoverable_errors_by_level
  (h : Host) (stream : string) (status d : dict) :
  json_loads h stream = Some (VDict status) ->
  dict_get "recoverable_errors" status = Some (VDict d) ->
  Forall (fun kv => is_list kv.2 = true) d ->
  (forall level,
      read_recoverable_errors h stream (Some level)
      = Return (VList (errors_at d level)))
  /\ read_recoverable_errors h stream None
     = Return (VList (flat_map (errors_at d) (keys d))).
Proof.
  intros Hjson Hkey Hd. unfold read_recoverable_errors.
  rewrite Hjson, Hkey. simpl. split.
  - intros level. unfold errors_at.
    destruct (dict_get level d) as [v|] eqn:Hv; [|reflexivity].
    apply dict_get_in, list_elem_of_In in Hv. rewrite Forall_forall in Hd.
    specialize (Hd _ Hv). by destruct v.
  - assert (map (fun kv : string * value => VStr kv.1) d = map VStr (keys d))
      as -> by (unfold keys; by rewrite map_map).
    rewrite (extend_all_lists d (keys d) [] Hd); [reflexivity|].
    intros k Hk. unfold keys in Hk. apply in_map_iff in Hk as [[k' v] [<- Hin]].
    by apply (dict_get_key k' v).
Qed.

Lemma read_recoverable_errors_by_level_witness :
  read_recoverable_errors
    (Fixtures.answering_host "24.1" Fixtures.status_output
       (Some Fixtures.status_json) None) "{...}" None
  = Return (VList [VStr "w1"; VStr "w2"; VStr "e1"]).
Proof.
  destruct (read_recoverable_errors_by_level
              (Fixtures.answering_host "24.1" Fixtures.status_output
                 (Some Fixtures.status_json) None) "{...}"
              [("status", VStr "done");
               ("extended_status", VStr "degraded done");
               ("recoverable_errors",
                VDict [("WARNING", VList [VStr "w1"; VStr "w2"]);
                       ("ERROR", VList [VStr "e1"])])]
              [("WARNING", VList [VStr "w1"; VStr "w2"]);
               ("ERROR", VList [VStr "e1"])]
              eq_refl eq_refl) as [_ H].
  - by repeat constructor.
  - exact H.
Defined.

Lemma prefix_char (c : ascii) (s : string) :
  String.prefix (String c "") s
  = match list_ascii_of_string s with
    | a :: _ => Ascii.eqb c a
    | [] => false
    end.
Proof.
  destruct s as [|a r]; [reflexivity|]. simpl.
  destruct (ascii_dec c a) as [->|Hne].
  - rewrite Ascii.eqb_refl. by destruct r.
  - by apply Ascii.eqb_neq in Hne as ->.
Qed.

Lemma lstrip_head (c : ascii) (s : string) :
  String.prefix (String c "") (lstrip c s) = false.
Proof.
  induction s as [|a r IH]; [reflexivity|]. cbn [lstrip].
  destruct (Ascii.eqb c a) eqn:Hca; [done|].
  by rewrite prefix_char; simpl.
Qed.

Lemma lstrip_suffix (c : ascii) (s : string) :
  exists p, list_ascii_of_string s
            = (p ++ list_ascii_of_string (lstrip c s))%list.
Proof.
  induction s as [|a r [p IH]]; [by exists []|]. cbn [lstrip].
  destruct (Ascii.eqb c a).
  - exists (a :: p). simpl. by rewrite IH.
  - by exists [].
Qed.

Lemma rev_app_list (s t : string) :
  list_ascii_of_string (String.rev_app s t)
  = (rev (list_ascii_of_string s) ++ list_ascii_of_string t)%list.
Proof.
  revert t. induction s as [|a s IH]; intros t; [reflexivity|].
  simpl. rewrite IH. simpl. by rewrite <- app_assoc.
Qed.

Lemma rev_list (s : string) :
  list_ascii_of_string (String.rev s) = rev (list_ascii_of_string s).
Proof. unfold String.rev. rewrite rev_app_list. simpl. by rewrite app_nil_r. Qed.

(** [strip] leaves no [c] at either end. *)
Lemma strip_ends (c : ascii) (s : string) :
  String.prefix (String c "") (strip c s) = false
  /\ String.prefix (String c "") (String.rev (strip c s)) = false.
Proof.
  unfold strip.
  set (t := lstrip c s). set (u := lstrip c (String.rev t)).
  pose proof (lstrip_head c s) as Ht. fold t in Ht.
  pose proof (lstrip_head c (String.rev t)) as Hu. fold u in Hu.
  destruct (lstrip_suffix c (String.rev t)) as [p Hp]. fold u in Hp.
  rewrite rev_list in Hp.
  rewrite prefix_char in Ht, Hu.
  split; rewrite prefix_char, !rev_list.
  - assert (list_ascii_of_string t
            = (rev (list_ascii_of_string u) ++ rev p)%list) as Heq.
    { rewrite <- (rev_involutive (list_ascii_of_string t)), Hp.
      by rewrite rev_app_distr. }
    rewrite Heq in Ht.
    by destruct (rev (list_ascii_of_string u)).
  - by rewrite rev_involutive.
Qed.

(** X7.  The keys that [get_schema_failure_sources] returns carry no quote
    at either end: whatever text the match of the pattern holds, every
    piece of it is stripped of its surrounding quotes. *)
Theorem schema_failure_sources_unquoted (h : Host) (keys : list string) :
  get_schema_failure_sources h = Return keys ->
  Forall (fun key => String.prefix "'" key = false
                     /\ String.prefix "'" (String.rev key) = false) keys.
Proof.
  unfold get_schema_failure_sources.
  destruct (wait_for h _ 10) as [sp|exc].
  - destruct (re_search h _ _) as [group|]; intros [= <-]; [|constructor].
    apply Forall_map, Forall_forall. intros piece _. apply strip_ends.
  - by destruct exc; intros [= <-].
Qed.

Lemma schema_failure_sources_unquoted_witness :
  Forall (fun key => String.prefix "'" key = false
                     /\ String.prefix "'" (String.rev key) = false)
    ["some-key"; "another-key"].
Proof.
  apply (schema_failure_sources_unquoted
           (Fixtures.answering_host "24.1" Fixtures.schema_output None
              (Some Fixtures.schema_groups))).
  reflexivity.
Defined.

(** X8.  [validate_cloud_init_schema] reports what the probe found and
    nothing else: it returns exactly when the probe returns no key, in
    particular when the probe timed out; keys returned by the probe are
    raised in a [CloudInitSchemaValidationError] that carries them; an
    exception of the probe passes through. *)
Theorem validate_cloud_init_schema_spec (h : Host) :
  (wait_for h (arun_command h ["cloud-init"; "schema"; "--system"] (Some true)) 10
   = Raise TimeoutError ->
   validate_cloud_init_schema h = Return tt)
  /\ (get_schema_failure_sources h = Return [] <->
      validate_cloud_init_schema h = Return tt)
  /\ (forall key keys,
        get_schema_failure_sources h = Return (key :: keys) ->
        validate_cloud_init_schema h
        = Raise (CloudInitSchemaValidationError (key :: keys)
                   "Cloud config schema failed to validate."))
  /\ (forall exc,
        get_schema_failure_sources h = Raise exc ->
        validate_cloud_init_schema h = Raise exc).
Proof.
  unfold validate_cloud_init_schema. split; [|split; [|split]].
  - intros H. unfold get_schema_failure_sources. by rewrite H.
  - destruct (get_schema_failure_sources h) as [[|k ks]|exc]; simpl;
      split; intros H; by simplify_eq.
  - by intros key keys ->.
  - by intros exc ->.
Qed.

Lemma validate_cloud_init_schema_spec_witness :
  validate_cloud_init_schema (Fixtures.stalled_host "24.1") = Return tt
  /\ validate_cloud_init_schema
       (Fixtures.answering_host "24.1" Fixtures.schema_output None
          (Some Fixtures.schema_groups))
     = Raise (CloudInitSchemaValidationError ["some-key"; "another-key"]
                "Cloud config schema failed to validate.").
Proof.
  split.
  - destruct (validate_cloud_init_schema_spec (Fixtures.stalled_host "24.1"))
      as [H _].
    apply H. reflexivity.
  - destruct (validate_cloud_init_schema_spec
                (Fixtures.answering_host "24.1" Fixtures.schema_output None
                   (Some Fixtures.schema_groups))) as (_ & _ & H & _).
    apply H. reflexivity.
Defined.

End CloudInitSchemaFacts.

(* ===================================================================== *)
(** * Further properties of the kernel crash dumps controller *)
(* ===================================================================== *)

Section KernelCrashDumpsRoundTrip.

Import KernelCrashDumps.

Lemma known_key_cases (k : string) :
  str_in k known_keys = true ->
  k = "enabled" \/ k = "memory-min" \/ k = "memory-reserved"
  \/ k = "crashkernel".
Proof.
  unfold str_in, known_keys. cbn [existsb].
  intros H.
  apply orb_true_iff in H as [H|H]; [left; by apply String.eqb_eq|].
  apply orb_true_iff in H as [H|H]; [right; left; by apply String.eqb_eq|].
  apply orb_true_iff in H as [H|H];
    [right; right; left; by apply String.eqb_eq|].
  apply orb_true_iff in H as [H|H]; [|discriminate].
  right; right; right; by apply String.eqb_eq.
Qed.

(** X9.  Data that the schema accepts goes through the controller into
    the model and out of [render] unchanged: [load_autoinstall_data] does
    not raise, and the rendered section then binds each of the four keys
    to the value the data gave it, or to [None] where the data had no such
    key. *)
Theorem load_then_render (model : KernelCrashDumpsModel) (d : dict) :
  is_valid autoinstall_schema (VDict d) = true ->
  exists model',
    load_autoinstall_data model (Some d) = Return model'
    /\ keys (rendered_section model') = known_keys
    /\ forall k, str_in k known_keys = true ->
         dict_get k (rendered_section model')
         = Some (default VNone (dict_get k d)).
Proof.
  rewrite autoinstall_schema_on_dict, negb_true_iff.
  unfold claimed_rejected, ill_typed, lone_memory_key, key_in,
    load_autoinstall_data, rendered_section, render.
  intros H.
  repeat match goal with
         | H : _ || _ = false |- _ => apply orb_false_iff in H as [? ?]
         end.
  destruct (dict_get "enabled" d) as [[]|] eqn:He; try discriminate.
  destruct (dict_get "memory-min" d) as [[]|] eqn:Hmm; try discriminate;
    destruct (dict_get "memory-reserved" d) as [[]|] eqn:Hmr;
    try discriminate;
    destruct (dict_get "crashkernel" d) as [[]|] eqn:Hck; try discriminate;
    (eexists; split; [reflexivity|]; split; [reflexivity|];
     intros k Hk;
     destruct (known_key_cases k Hk) as [-> | [-> | [-> | ->]]];
     rewrite ?He, ?Hmm, ?Hmr, ?Hck; reflexivity).
Qed.

Lemma load_then_render_witness :
  exists model',
    load_autoinstall_data default_model
      (Some [("enabled", VBool true); ("crashkernel", VStr "4G:512M")])
    = Return model'
    /\ rendered_section model'
       = [("enabled", VBool true); ("memory-min", VNone);
          ("memory-reserved", VNone); ("crashkernel", VStr "4G:512M")].
Proof.
  destruct (load_then_render default_model
              [("enabled", VBool true); ("crashkernel", VStr "4G:512M")]
              eq_refl) as (model' & Hload & _).
  exists model'. split; [exact Hload|].
  simpl in Hload. injection Hload as <-. reflexivity.
Defined.

End KernelCrashDumpsRoundTrip.

(* ===================================================================== *)
(** * Further properties of the validation script *)
(* ===================================================================== *)

Section ValidateScriptMoreFacts.

Import ValidateScript.

Example splitlines_boundaries :
  splitlines ("#cloud-config" ++ Fixtures.next_line ++ "a"
              ++ String cr (String nl "b") ++ Fixtures.line_separator
              ++ String cr "c" ++ String nl "")
  = ["#cloud-config"; "a"; "b"; ""; "c"].
Proof. reflexivity. Qed.

Lemma splitlines_aux_cur (s cur : string) :
  cur <> "" -> splitlines_aux 0 cur s <> [].
Proof.
  revert cur. induction s as [|c r IH]; intros cur Hcur;
    cbn [splitlines_aux].
  - by destruct (String.eqb_spec cur "").
  - destruct (linebreak_len (String c r)); [|done].
    apply IH. by destruct cur.
Qed.

Lemma splitlines_nil (s : string) : splitlines s = [] <-> s = "".
Proof.
  split; [|by intros ->].
  unfold splitlines. destruct s as [|c r]; [done|].
  cbn [splitlines_aux].
  destruct (linebreak_len (String c r)); [|done].
  intros H. by apply splitlines_aux_cur in H.
Qed.

(** X11.  [parse_cloud_config] returns a value exactly when the first
    line of the data is [#cloud-config], the data parses to a mapping, and
    the mapping has the key [autoinstall]; what it returns is the value
    under that key. *)
Theorem parse_cloud_config_returns_iff (env : Env) (data : string) (v : value) :
  parse_cloud_config env data = Return v
  <-> exists lines d,
        splitlines data = "#cloud-config" :: lines
        /\ safe_load env data = Return (VDict d)
        /\ dict_get "autoinstall" d = Some v.
Proof.
  unfold parse_cloud_config. split.
  - destruct (splitlines data) as [|first lines]; [discriminate|].
    destruct (String.eqb_spec first "#cloud-config") as [->|Hne];
      [|discriminate].
    simpl. destruct (safe_load env data) as [[| | |s|l|d]|exc]; simpl;
      try discriminate.
    + destruct (contains "autoinstall" s); discriminate.
    + destruct (existsb is_autoinstall_str l); discriminate.
    + destruct (dict_get "autoinstall" d) as [x|] eqn:Hx; [|discriminate].
      intros [= ->]. by exists lines, d.
  - intros (lines & d & -> & Hd & Hv). simpl. rewrite Hd. simpl.
    by rewrite Hv.
Qed.

(** X12.  Only the empty input has no first line.  With wrapping expected
    and no [--check-link], the empty input makes the script print
    ["IndexError: list index out of range"] and the failure sentinel and
    return 1, before YAML or the server are consulted. *)
Theorem main_empty_input (env : Env) (args : Namespace) (fs : Server.files) :
  (splitlines (input args) = [] <-> input args = "")
  /\ (input args = "" ->
      expect_cloudconfig args = true ->
      check_link args = false ->
      main env args fs
      = {| printed := ["IndexError: list index out of range"; FAILURE_MSG];
           tracebacks := [];
           exit := Return 1%Z |}).
Proof.
  split; [apply splitlines_nil|].
  intros Hin Hexp Hlink. unfold main, unwrap, parse_cloud_config.
  by rewrite Hin, Hexp, Hlink.
Qed.

Lemma main_empty_input_witness :
  main Fixtures.example_env (Fixtures.example_args "" true false) ∅
  = {| printed := ["IndexError: list index out of range"; FAILURE_MSG];
       tracebacks := [];
       exit := Return 1%Z |}.
Proof.
  apply (main_empty_input Fixtures.example_env
           (Fixtures.example_args "" true false) ∅); reflexivity.
Defined.

End ValidateScriptMoreFacts.

(* ===================================================================== *)
(** * Properties of the message hub *)
(* ===================================================================== *)

Section PubSubFacts.

Import PubSub.

Context {A W : Type}.



(** X14.  Channels do not interfere: a [subscribe] to one channel leaves
    the broadcasts on every other channel as they were, and a broadcast on
    a channel nobody subscribed to calls nothing, raises nothing and leaves
    the state as it is. *)
Theorem abroadcast_other_channel
  (hub : MessageHub A W) (channel other : string) (m : method A W)
  (args : A) (w : W) :
  (channel <> other ->
   abroadcast (subscribe hub channel m) other args w
   = abroadcast hub other args w)
  /\ (hub !! other = None -> abroadcast hub other args w = (w, None))
  /\ abroadcast (new_hub : MessageHub A W) other args w = (w, None).
Proof.
  unfold abroadcast, subscribe, new_hub, MessageHub in *. split; [|split].
  - intros Hne. by rewrite lookup_insert_ne.
  - by intros ->.
  - by rewrite lookup_empty.
Qed.

End PubSubFacts.

(** A hub of counters: [CoreChannels.NETWORK_UP] with one subscriber that
    adds its argument to the state. *)
Lemma abroadcast_other_channel_witness :
  PubSub.abroadcast
    (PubSub.subscribe (PubSub.new_hub : PubSub.MessageHub nat nat)
       "network-up" (fun n total => (total + n, None)))
    "other" 3 0
  = (0, None).
Proof.
  destruct (abroadcast_other_channel
              (PubSub.new_hub : PubSub.MessageHub nat nat)
              "network-up" "other" (fun n total => (total + n, None)) 3 0)
    as (H1 & _ & H3).
  rewrite H1 by discriminate. exact H3.
Defined.

(* ===================================================================== *)
(** * Properties of the client: first screen, global overlays *)
(* ===================================================================== *)

Section ClientFacts.

Import Client.

(** The loop leaves the start value when no controller has the name, and
    otherwise the position of the last controller that has it. *)
Lemma find_index_spec (screen : string) (cs : list Controller) (i index : nat) :
  (Forall (fun c => name c <> screen) cs
   /\ find_index screen cs i index = index)
  \/ (exists j c,
        cs !! j = Some c
        /\ name c = screen
        /\ find_index screen cs i index = i + j
        /\ forall j' c', j < j' -> cs !! j' = Some c' -> name c' <> screen).
Proof.
  revert i index. induction cs as [|c cs IH]; intros i index.
  - left. by split.
  - cbn [find_index].
    destruct (IH (S i) (if String.eqb (name c) screen then i else index))
      as [[Hall Hr]|(j & c' & Hj & Hn & Hr & Hlast)].
    + destruct (String.eqb_spec (name c) screen) as [Heq|Hne].
      * right. exists 0, c. repeat split; try done.
        -- rewrite Hr. lia.
        -- intros [|j'] c' Hlt Hc'; [lia|]. simpl in Hc'.
           rewrite Forall_forall in Hall. apply Hall.
           by apply list_elem_of_lookup_2 in Hc'.
      * left. split; [by constructor|done].
    + right. exists (S j), c'. repeat split; try done.
      * rewrite Hr. lia.
      * intros [|j'] c'' Hlt Hc''; [lia|]. simpl in Hc''.
        apply (Hlast j' c''); [lia|done].
Qed.

(** X15.  Where the client resumes.  Without an update, or without the
    state file, it is the first screen.  After an update with a state file
    that names a screen, the index is the position of the last controller
    with that name: every controller with the name is at or before it, and
    the controller at the index has the name.  The index is a position of
    the list, or 0. *)
Theorem initial_index_spec (updated : bool) (state_file : option string)
  (instances : list Controller) :
  let index := initial_index updated state_file instances in
  (index < List.length instances \/ index = 0)
  /\ (updated = false \/ state_file = None -> index = 0)
  /\ (forall contents j c,
        updated = true ->
        state_file = Some contents ->
        instances !! j = Some c ->
        name c = strip_ws contents ->
        strip_ws contents <> "" ->
        j <= index
        /\ exists c', instances !! index = Some c'
                      /\ name c' = strip_ws contents).
Proof.
  intros index. subst index. unfold initial_index.
  split; [|split].
  - destruct updated; [|by right]. destruct state_file as [contents|]; [|by right].
    destruct (String.eqb (strip_ws contents) ""); [by right|].
    destruct (find_index_spec (strip_ws contents) instances 0 0)
      as [[_ ->]|(j & c & Hj & _ & -> & _)]; [by right|].
    left. simpl. by apply lookup_lt_Some in Hj.
  - intros [->| ->]; [done|]. by destruct updated.
  - intros contents j c -> -> Hj Hname Hne.
    destruct (String.eqb_spec (strip_ws contents) "") as [|_]; [done|].
    destruct (find_index_spec (strip_ws contents) instances 0 0)
      as [[Hall _]|(k & c' & Hk & Hn & -> & Hlast)].
    + rewrite Forall_forall in Hall.
      apply list_elem_of_lookup_2 in Hj. by apply Hall in Hj.
    + simpl. split; [|by exists c'].
      destruct (decide (j <= k)) as [|Hgt]; [done|].
      exfalso. apply (Hlast j c); [lia|done|done].
Qed.

Example strip_ws_no_break_space :
  strip_ws (Fixtures.no_break_space ++ " Network" ++ Fixtures.no_break_space
            ++ String nl "")
  = "Network"
  /\ initial_index true (Some ("Network" ++ Fixtures.no_break_space))
       Fixtures.three_screens = 1.
Proof. split; reflexivity. Qed.

Lemma initial_index_spec_witness :
  exists c,
    Fixtures.three_screens
      !! initial_index true (Some ("Network" ++ String nl ""))
           Fixtures.three_screens
    = Some c
    /\ name c = strip_ws ("Network" ++ String nl "").
Proof.
  pose proof (initial_index_spec true (Some ("Network" ++ String nl ""))
                Fixtures.three_screens) as H.
  cbv zeta in H. destruct H as (_ & _ & H).
  destruct (H ("Network" ++ String nl "") 1
              {| name := "Network"; endpoint_name := Some "network" |}
              eq_refl eq_refl eq_refl eq_refl) as [_ Hc]; [discriminate|].
  exact Hc.
Defined.




Section OverlayFacts.

Context {O : Type} `{EqDecision O}.

Lemma remove_first_app_fresh (l : list O) (x : O) :
  x ∉ l -> remove_first x (l ++ [x]) = l.
Proof.
  induction l as [|y l IH]; intros Hx; simpl.
  - by rewrite decide_True.
  - apply not_elem_of_cons in Hx as [Hne Hx].
    rewrite decide_False by done. by rewrite IH.
Qed.

Lemma remove_first_length (l : list O) (x : O) :
  x ∈ l -> S (List.length (remove_first x l)) = List.length l.
Proof.
  induction l as [|y l IH]; intros Hx; [by apply elem_of_nil in Hx|].
  simpl. destruct (decide (x = y)) as [->|Hne]; [done|].
  apply elem_of_cons in Hx as [?|Hx]; [done|]. simpl. by rewrite IH.
Qed.

Lemma remove_first_other (l : list O) (x y : O) :
  x <> y -> y ∈ remove_first x l <-> y ∈ l.
Proof.
  intros Hne. induction l as [|z l IH]; [done|]. simpl.
  destruct (decide (x = z)) as [->|Hxz].
  - rewrite elem_of_cons. split; [by right|by intros [->|?]].
  - by rewrite !elem_of_cons, IH.
Qed.

(** X17.  Global overlays.  Adding an overlay that is not in the list and
    removing it again leaves the list as it was.  Removing an overlay that
    is not in the list leaves the list as it was ([list.remove] is not
    called).  Removing one that is in the list takes out exactly one entry
    and no entry of another overlay.  In every case the view is asked:
    when [self.ui.body] is a [BaseView], adding calls
    [show_stretchy_overlay(overlay)] on it and removing calls
    [remove_overlay(overlay)] on it, also for an overlay that is not in
    the list; otherwise no call is made.  (What the view does with these
    calls is not part of this.) *)
Theorem global_overlay_round_trip (self : Overlays O) (overlay : O) :
  (overlay ∉ global_overlays self ->
   global_overlays (remove_global_overlay (add_global_overlay self overlay)
                      overlay)
   = global_overlays self)
  /\ (overlay ∉ global_overlays self ->
      global_overlays (remove_global_overlay self overlay)
      = global_overlays self)
  /\ (overlay ∈ global_overlays self ->
      S (List.length (global_overlays (remove_global_overlay self overlay)))
      = List.length (global_overlays self)
      /\ forall other, overlay <> other ->
           (other ∈ global_overlays (remove_global_overlay self overlay)
            <-> other ∈ global_overlays self))
  /\ ui_calls (add_global_overlay self overlay)
     = (if body_is_view self
        then (ui_calls self ++ [ShowStretchyOverlay overlay])%list
        else ui_calls self)
  /\ ui_calls (remove_global_overlay self overlay)
     = (if body_is_view self
        then (ui_calls self ++ [RemoveOverlay overlay])%list
        else ui_calls self)
  /\ body_is_view (add_global_overlay self overlay) = body_is_view self
  /\ body_is_view (remove_global_overlay self overlay) = body_is_view self.
Proof.
  unfold remove_global_overlay, add_global_overlay. simpl.
  split; [|split; [|split; [|done]]].
  - intros Hfresh. rewrite bool_decide_eq_true_2.
    + by apply remove_first_app_fresh.
    + apply elem_of_app. right. by apply list_elem_of_singleton.
  - intros Hfresh. by rewrite bool_decide_eq_false_2.
  - intros Hin. rewrite bool_decide_eq_true_2 by done. split.
    + by apply remove_first_length.
    + intros other Hne. by apply remove_first_other.
Qed.

End OverlayFacts.

End ClientFacts.

Lemma global_overlay_round_trip_witness :
  let self :=
    {| Client.global_overlays := [1; 2]; Client.body_is_view := true;
       Client.ui_calls := [] |} in
  Client.global_overlays
    (Client.remove_global_overlay (Client.add_global_overlay self 3) 3)
  = [1; 2]
  /\ Client.global_overlays (Client.remove_global_overlay self 3) = [1; 2]
  /\ Client.ui_calls (Client.remove_global_overlay self 3)
     = [Client.RemoveOverlay 3].
Proof.
  intros self.
  destruct (global_overlay_round_trip self 3) as (H1 & H2 & _ & _ & H3 & _).
  assert (3 ∉ Client.global_overlays self) as Hfresh.
  { intros Hin.
    by repeat (apply elem_of_cons in Hin as [?|Hin]; [done|]);
      apply elem_of_nil in Hin. }
  split; [by apply H1|]. split; [by apply H2|]. exact H3.
Defined.

Section RestartFacts.

Import Client.

(** X18.  [restart] replaces the process exactly when no foreground
    process runs and no server restart is wanted, and then [Exec] is its
    last effect; otherwise it sets [restarting] and hands over to one
    background task.  The last-screen file is removed in this call only
    when that was asked for and no foreground process runs (with one, the
    request is passed on to the task).  Outside dry-run the command line
    is [snap run subiquity]. *)
Theorem restart_spec (self : Restartable)
  (remove_last_screen restart_server : bool) :
  let r := restart self remove_last_screen restart_server in
  ((exists cmd, In (Exec cmd) r.2)
   <-> fg_proc self = false /\ restart_server = false)
  /\ (fg_proc self = false -> restart_server = false ->
      last r.2 = Some (Exec (restart_cmdline self)) /\ r.1 = self)
  /\ (fg_proc self = true ->
      r.2 = [KillFgProcTask remove_last_screen restart_server]
      /\ restarting r.1 = true
      /\ block_input r.1 = block_input self)
  /\ (fg_proc self = false -> restart_server = true ->
      last r.2 = Some RestartServerTask
      /\ restarting r.1 = true
      /\ block_input r.1 = true)
  /\ (In RemoveLastScreen r.2
      <-> fg_proc self = false /\ remove_last_screen = true)
  /\ (dry_run self = false -> restart_cmdline self = ["snap"; "run"; "subiquity"]).
Proof.
  intros r. subst r. unfold restart.
  destruct self as [fg rst blk lp dr exe tail sock pid].
  cbn [fg_proc dry_run has_urwid_loop].
  set (cmd := restart_cmdline _).
  split; [|split; [|split; [|split; [|split]]]].
  - destruct fg; [split; [intros [c [[=]|[]]]|by intros [? _]]|].
    destruct restart_server.
    + split; [|by intros [_ ?]]. intros [c H].
      apply in_app_or in H as [H|[[=]|[]]].
      by destruct remove_last_screen; [destruct H as [[=]|[]]|].
    + split; [done|]. intros _. exists cmd.
      rewrite !app_assoc. apply in_or_app. right. by left.
  - intros -> ->. split; [|done]. rewrite !app_assoc. apply last_snoc.
  - by intros ->.
  - intros -> ->. cbn [fst snd]. split; [apply last_snoc|done].
  - destruct fg; [split; [intros [[=]|[]]|by intros [? _]]|].
    destruct remove_last_screen.
    + split; [done|]. intros _. destruct restart_server; by left.
    + split; [|by intros [_ ?]]. intros H.
      destruct restart_server; [by destruct H as [[=]|[]]|].
      simpl in H. by destruct lp; [destruct H as [[=]|[[=]|[]]]|destruct H as [[=]|[]]].
  - subst cmd. unfold restart_cmdline. by intros ->.
Qed.

Lemma restart_spec_witness :
  last (restart
          {| fg_proc := false; restarting := false; block_input := false;
             has_urwid_loop := true; dry_run := true;
             executable := "/usr/bin/python3"; argv_tail := ["--dry-run"];
             socket := "/tmp/socket"; server_pid := Some "42" |}
          false false).2
  = Some (Exec ["/usr/bin/python3"; "-m"; "subiquity.cmd.tui"; "--dry-run";
                "--socket"; "/tmp/socket"; "--server-pid"; "42"]).
Proof.
  pose proof (restart_spec
                {| fg_proc := false; restarting := false;
                   block_input := false; has_urwid_loop := true;
                   dry_run := true; executable := "/usr/bin/python3";
                   argv_tail := ["--dry-run"]; socket := "/tmp/socket";
                   server_pid := Some "42" |} false false) as H.
  cbv zeta in H. destruct H as (_ & H & _).
  destruct (H eq_refl eq_refl) as [Hlast _]. exact Hlast.
Defined.

End RestartFacts.

Section RespHookFacts.

Import Client.

Context {R : Type}.

(** X19.  [server_updated] is written once: a value that is set stays,
    and an unset one takes the [x-updated] header of the response, if it
    has one.  [restart] is called exactly when a set value differs from
    the header, and then the call ends in [Abort] without a report (or the
    process is replaced), whatever the other headers say. *)
Theorem resp_hook_server_updated (env : HookEnv R)
  (server_updated : option string) (response : Response) :
  let r := resp_hook env server_updated response in
  r.1.1 = (match server_updated with
           | Some seen => Some seen
           | None => headers response !! "x-updated"
           end)
  /\ (r.1.2 = true
      <-> exists seen updated,
            server_updated = Some seen
            /\ headers response !! "x-updated" = Some updated
            /\ seen <> updated)
  /\ (r.1.2 = true ->
      r.2 = if restart_returns env then RaisedAbort None else Replaced).
Proof.
  intros r. subst r. unfold resp_hook.
  destruct (headers response !! "x-updated") as [updated|];
    destruct server_updated as [seen|]; simpl;
    try (repeat split; try done; try (intros (? & ? & ? & ? & ?); done);
         fail).
  destruct (decide (seen = updated)) as [->|Hne].
  - rewrite bool_decide_eq_true_2 by done. simpl.
    repeat split; try done. intros (? & ? & ? & ? & ?). by simplify_eq.
  - rewrite bool_decide_eq_false_2 by done. simpl.
    repeat split; try done. intros _. by exists seen, updated.
Qed.

(** X20.  [resp_hook] hands the response back exactly when nothing stands
    against it: the [x-updated] header, if there is one, does not differ
    from a value seen before; [x-status] is neither [skip] nor [confirm];
    there is no [x-error-report]; and [raise_for_status] raises nothing. *)
Theorem resp_hook_returns_iff (env : HookEnv R)
  (server_updated : option string) (response : Response) :
  (resp_hook env server_updated response).2 = Returned
  <-> (forall seen updated,
         server_updated = Some seen ->
         headers response !! "x-updated" = Some updated ->
         seen = updated)
      /\ headers response !! "x-status" <> Some "skip"
      /\ headers response !! "x-status" <> Some "confirm"
      /\ headers response !! "x-error-report" = None
      /\ raise_for_status response = None.
Proof.
  assert (after_update_check env response = Returned
          <-> headers response !! "x-status" <> Some "skip"
              /\ headers response !! "x-status" <> Some "confirm"
              /\ headers response !! "x-error-report" = None
              /\ raise_for_status response = None) as Hafter.
  { unfold after_update_check, check_status.
    destruct (decide (headers response !! "x-status" = Some "skip")) as [Hs|Hs].
    { rewrite bool_decide_eq_true_2 by done. split; [done|]. by intros [? _]. }
    rewrite bool_decide_eq_false_2 by done.
    destruct (decide (headers response !! "x-status" = Some "confirm"))
      as [Hc|Hc].
    { rewrite bool_decide_eq_true_2 by done. split; [done|].
      by intros (_ & ? & _). }
    rewrite bool_decide_eq_false_2 by done.
    destruct (headers response !! "x-error-report") as [report|].
    { split; [|by intros (_ & _ & ? & _)].
      by destruct (from_json env report). }
    destruct (raise_for_status response) as [[status| |exc]|]; simpl.
    - split; [|by intros (_ & _ & _ & ?)].
      destruct (status =? 422)%nat.
      + destruct (headers response !! "x-error-msg") as [msg|]; [|done].
        by destruct (loads env msg).
      + by destruct (report_ref env).
    - split; [|by intros (_ & _ & _ & ?)]. by destruct (report_ref env).
    - split; [done|by intros (_ & _ & _ & ?)].
    - done. }
  unfold resp_hook.
  destruct (headers response !! "x-updated") as [updated|];
    destruct server_updated as [seen|]; simpl.
  - destruct (decide (seen = updated)) as [->|Hne].
    + rewrite bool_decide_eq_true_2 by done. simpl. rewrite Hafter.
      split; [intros H; split; [by intros ?? [= <-] [= <-]|done]|by intros [_ ?]].
    + rewrite bool_decide_eq_false_2 by done. simpl. split.
      * by destruct (restart_returns env).
      * intros [H _]. by specialize (H seen updated eq_refl eq_refl).
  - rewrite Hafter. split; [intros H; split; [done|done]|by intros [_ ?]].
  - rewrite Hafter. split; [intros H; split; [done|done]|by intros [_ ?]].
  - rewrite Hafter. split; [intros H; split; [done|done]|by intros [_ ?]].
Qed.

End RespHookFacts.

Lemma resp_hook_server_updated_witness :
  (Client.resp_hook
     {| Client.from_json := fun s => Return s;
        Client.loads := fun s => Return (VStr s);
        Client.report_ref := Some "report";
        Client.restart_returns := true |}
     (Some "1")
     {| Client.headers := {[ "x-updated" := "2"; "x-status" := "skip" ]};
        Client.raise_for_status := None |}).2
  = Client.RaisedAbort None.
Proof.
  pose proof (resp_hook_server_updated
                {| Client.from_json := fun s => Return s;
                   Client.loads := fun s => Return (VStr s);
                   Client.report_ref := Some "report";
                   Client.restart_returns := true |}
                (Some "1")
                {| Client.headers :=
                     {[ "x-updated" := "2"; "x-status" := "skip" ]};
                   Client.raise_for_status := None |}) as H.
  cbv zeta in H. destruct H as (_ & _ & H). apply H. reflexivity.
Defined.
